(** * Type-introspection helpers of [index.ts]: model and verification

    The program classifies JavaScript values ([getType], [getRealType]) and
    answers three questions about arrays of values
    ([allItemsHaveTheSameType], [everyItemHasAUniqueRealType],
    [countRealTypes]); [areEqual] is the comparison its assertions use.

    The development is a shallow embedding: the host language's values and
    the built-ins the program calls ([typeof], [instanceof], [===],
    [Number.isNaN], [Array.prototype.toString], [Array.prototype.sort], ...)
    are modelled in [Number] and [JS]; the program's functions follow,
    translated one by one under their own names. The typed file index.ts
    and its untyped variant define the same functions; the variant calls
    the globals [isNaN] and [isFinite] where index.ts calls [Number.isNaN]
    and [Number.isFinite]. *)

From Stdlib Require Import ZArith List String Ascii Bool Lia DecimalString.
From Stdlib Require Import Permutation Sorted.
Import ListNotations.

Local Open Scope string_scope.
Local Open Scope Z_scope.

Set Warnings "-register-all".

(** ** Numbers

    A JavaScript number is an IEEE 754 binary64; it is represented by its
    64-bit pattern: bit 63 is the sign, bits 62..52 the biased exponent,
    bits 51..0 the fraction. *)
Module Number.

Definition signBit (x : Z) : bool := Z.testbit x 63.
Definition exponentField (x : Z) : Z := Z.land (Z.shiftr x 52) 0x7FF.
Definition fraction (x : Z) : Z := Z.land x (Z.shiftl 1 52 - 1).

(** [Number.isNaN] and [Number.isFinite] on a value that is a number. The
    globals [isNaN] and [isFinite], which the untyped variant of the
    program calls, first convert their argument to a number and so agree
    with these on numbers. *)
Definition isNaN (x : Z) : bool :=
  (exponentField x =? 0x7FF) && negb (fraction x =? 0).
Definition isFinite (x : Z) : bool := negb (exponentField x =? 0x7FF).
Definition isZero (x : Z) : bool :=
  (exponentField x =? 0) && (fraction x =? 0).

(** The magnitude of a finite number is [significand * 2 ^ exponent]. *)
Definition significand (x : Z) : Z :=
  if exponentField x =? 0 then fraction x else Z.shiftl 1 52 + fraction x.
Definition exponent (x : Z) : Z :=
  if exponentField x =? 0 then -1074 else exponentField x - 1075.

(** [Number::equal]: NaN differs from everything, the two zeros are equal. *)
Definition equal (x y : Z) : bool :=
  negb (isNaN x) && negb (isNaN y) &&
  ((isZero x && isZero y) ||
   (Bool.eqb (signBit x) (signBit y) &&
    (exponentField x =? exponentField y) && (fraction x =? fraction y))).

Definition NaN : Z := 0x7FF8000000000000.
Definition POSITIVE_INFINITY : Z := 0x7FF0000000000000.
Definition NEGATIVE_INFINITY : Z := 0xFFF0000000000000.
Definition one : Z := 0x3FF0000000000000.

(** [Number::toString] in radix 10: the shortest decimal [s * 10 ^ (n - k)]
    (with [k] digits) that rounds to the number, the closest one when there
    are several. [compareScaled s j b q] compares [s * 10 ^ j] with
    [b * 2 ^ q]. *)
Definition compareScaled (s j b q : Z) : comparison :=
  (s * 10 ^ Z.max j 0 * 2 ^ Z.max (- q) 0
   ?= b * 2 ^ Z.max q 0 * 10 ^ Z.max (- j) 0).

(** Does the decimal [s * 10 ^ j] round (to nearest, ties to even) to the
    positive finite [x]? The bounds are the midpoints to the neighbours of
    [x], in units of [2 ^ (exponent x - 2)]. *)
Definition roundsTo (x s j : Z) : bool :=
  let m := significand x in
  let q := exponent x - 2 in
  let lo := if (fraction x =? 0) && (1 <? exponentField x)
            then 4 * m - 1 else 4 * m - 2 in
  let hi := 4 * m + 2 in
  match compareScaled s j lo q, compareScaled s j hi q with
  | Gt, Lt => true
  | Eq, Lt | Gt, Eq => Z.even m
  | _, _ => false
  end.

(** The least [n] from the start value on with [x < 10 ^ n]. *)
Fixpoint magnitude (fuel : nat) (x n : Z) : Z :=
  match fuel with
  | O => n
  | S fuel' =>
      match compareScaled 1 n (4 * significand x) (exponent x - 2) with
      | Gt => n
      | _ => magnitude fuel' x (n + 1)
      end
  end.

Definition floorScaled (x j : Z) : Z :=
  let q := exponent x in
  (significand x * 2 ^ Z.max q 0 * 10 ^ Z.max (- j) 0)
  / (2 ^ Z.max (- q) 0 * 10 ^ Z.max j 0).

Definition candidate (x n k : Z) : option Z :=
  let j := n - k in
  let s := floorScaled x j in
  match roundsTo x s j, roundsTo x (s + 1) j with
  | false, false => None
  | true, false => Some s
  | false, true => Some (s + 1)
  | true, true =>
      match compareScaled (2 * s + 1) j (8 * significand x) (exponent x - 2) with
      | Gt => Some s
      | Lt => Some (s + 1)
      | Eq => Some (if Z.even s then s else s + 1)
      end
  end.

Fixpoint shortest (fuel : nat) (x n k : Z) : Z * Z :=
  match fuel with
  | O => (floorScaled x (n - k), k)
  | S fuel' =>
      match candidate x n k with
      | Some s => (s, k)
      | None => shortest fuel' x n (k + 1)
      end
  end.

Definition digits (s : Z) : string :=
  NilZero.string_of_uint (N.to_uint (Z.to_N s)).

Fixpoint zeros (n : nat) : string :=
  match n with O => EmptyString | S n' => String "0" (zeros n') end.

Definition format (s k n : Z) : string :=
  let d := digits s in
  if (k <=? n) && (n <=? 21) then d ++ zeros (Z.to_nat (n - k))
  else if (0 <? n) && (n <=? 21) then
    substring 0 (Z.to_nat n) d ++ "." ++
    substring (Z.to_nat n) (Z.to_nat (k - n)) d
  else if (-6 <? n) && (n <=? 0) then "0." ++ zeros (Z.to_nat (- n)) ++ d
  else
    let e := n - 1 in
    let exp := (if e <? 0 then "-" else "+") ++ digits (Z.abs e) in
    if k =? 1 then d ++ "e" ++ exp
    else substring 0 1 d ++ "." ++ substring 1 (Z.to_nat (k - 1)) d ++ "e" ++ exp.

Definition toString (x : Z) : string :=
  if isNaN x then "NaN"
  else if isZero x then "0"
  else
    let sign := if signBit x then "-" else "" in
    if negb (isFinite x) then sign ++ "Infinity"
    else
      let n := magnitude 700 x (-330) in
      let '(s, k) := shortest 17 x n 1 in
      let '(s, n) := if s =? 10 ^ k then (10 ^ (k - 1), n + 1) else (s, n) in
      sign ++ format s k n.

End Number.

(** ** Values and built-ins of the host language *)
Module JS.

(** A call either returns or throws. *)
Inductive Error : Type := TypeError.

Inductive Completion (A : Type) : Type :=
| Normal (a : A)
| Throw (e : Error).
Arguments Normal {A} a.
Arguments Throw {A} e.

Definition bind {A B : Type} (c : Completion A) (k : A -> Completion B)
  : Completion B :=
  match c with
  | Normal a => k a
  | Throw e => Throw e
  end.

Fixpoint sequence {A : Type} (cs : list (Completion A)) : Completion (list A) :=
  match cs with
  | [] => Normal []
  | c :: cs' => bind c (fun a => bind (sequence cs') (fun r => Normal (a :: r)))
  end.

(** The built-in constructors the program tests with [instanceof]. *)
Inductive Constructor : Type := JSArray | JSDate | JSRegExp | JSSet | JSEvent.

(** What a non-array, non-callable object is an instance of, among the
    constructors above; [OrdinaryObject] stands for every other object
    (object literals, boxed primitives, maps, ...). *)
Inductive Class : Type :=
| DateObject | RegExpObject | SetObject | EventObject | OrdinaryObject.

(** Values: the primitives, functions, arrays and ordinary objects.
    Arrays are dense sequences: the items are the values at indices
    [0 .. length - 1]. Objects, arrays and functions have an identity
    [id] (two evaluations of [[]] give arrays with different identities);
    a symbol is its identity. [str] is what converting the object to a
    string gives: the result of its own or inherited [toString], which
    may throw. Strings are sequences of code units. The built-in
    constructors ([Array], [Date], [RegExp], [Set], [Event]) are the host's
    own; exotic objects whose internal methods run user code (proxies) are
    not values of the model. *)
Inductive Value : Type :=
| VUndefined
| VNull
| VBoolean (b : bool)
| VNumber (bits : Z)
| VBigInt (z : Z)
| VString (s : string)
| VSymbol (id : nat)
| VFunction (id : nat) (str : Completion string)
| VArray (id : nat) (items : list Value)
| VObject (id : nat) (cls : Class) (str : Completion string).

(** [typeof v]. *)
Definition typeOf (v : Value) : string :=
  match v with
  | VUndefined => "undefined"
  | VNull => "object"
  | VBoolean _ => "boolean"
  | VNumber _ => "number"
  | VBigInt _ => "bigint"
  | VString _ => "string"
  | VSymbol _ => "symbol"
  | VFunction _ _ => "function"
  | VArray _ _ => "object"
  | VObject _ _ _ => "object"
  end.

(** [v instanceof C] for the built-in constructor [C]. *)
Definition instanceOf (v : Value) (C : Constructor) : bool :=
  match v, C with
  | VArray _ _, JSArray => true
  | VObject _ DateObject _, JSDate => true
  | VObject _ RegExpObject _, JSRegExp => true
  | VObject _ SetObject _, JSSet => true
  | VObject _ EventObject _, JSEvent => true
  | _, _ => false
  end.

(** [a === b]: values of different types differ; numbers compare by
    [Number::equal]; objects, arrays, functions and symbols by identity.
    An array, a function and another object are never the same object. *)
Definition strictEquals (a b : Value) : bool :=
  match a, b with
  | VUndefined, VUndefined => true
  | VNull, VNull => true
  | VBoolean x, VBoolean y => Bool.eqb x y
  | VNumber x, VNumber y => Number.equal x y
  | VBigInt x, VBigInt y => x =? y
  | VString x, VString y => String.eqb x y
  | VSymbol i, VSymbol j => Nat.eqb i j
  | VFunction i _, VFunction j _ => Nat.eqb i j
  | VArray i _, VArray j _ => Nat.eqb i j
  | VObject i _ _, VObject j _ _ => Nat.eqb i j
  | _, _ => false
  end.

(** [parts.join(",")] once every part is a string. *)
Fixpoint join (parts : list string) : string :=
  match parts with
  | [] => ""
  | [s] => s
  | s :: rest => s ++ "," ++ join rest
  end.

Definition bigintToString (z : Z) : string :=
  (if z <? 0 then "-" else "") ++ Number.digits (Z.abs z).

(** [ToString(v)]. For an array this is [Array.prototype.toString], that
    is [join]: an item that is [undefined] or [null] contributes the empty
    string, any other item its own conversion, left to right. Converting a
    symbol throws a [TypeError]. *)
Fixpoint ToString (v : Value) : Completion string :=
  match v with
  | VUndefined => Normal "undefined"
  | VNull => Normal "null"
  | VBoolean b => Normal (if b then "true" else "false")
  | VNumber x => Normal (Number.toString x)
  | VBigInt z => Normal (bigintToString z)
  | VString s => Normal s
  | VSymbol _ => Throw TypeError
  | VFunction _ str => str
  | VObject _ _ str => str
  | VArray _ items =>
      bind (sequence (map (fun item =>
                             match item with
                             | VUndefined | VNull => Normal ""
                             | _ => ToString item
                             end) items))
           (fun parts => Normal (join parts))
  end.

(** [a.length] and [a.toString()] of a value that is an array. *)
Definition arrayLength (a : Value) : nat :=
  match a with
  | VArray _ items => List.length items
  | _ => O
  end.

(** An object used as a dictionary from strings to numbers: its own
    properties in the order [Object.entries] lists them, which for keys
    that are not array indices is the order of creation. The numbers held
    are counts, far below [2 ^ 53], so they are exact and kept as
    integers. *)
Definition Dictionary : Type := list (string * Z).

(** [o[key]]: [None] is [undefined]. *)
Fixpoint getProperty (o : Dictionary) (key : string) : option Z :=
  match o with
  | [] => None
  | (k, v) :: o' => if String.eqb k key then Some v else getProperty o' key
  end.

(** [o[key] = value]: an existing property keeps its place, a new one is
    created last. *)
Fixpoint setProperty (o : Dictionary) (key : string) (value : Z) : Dictionary :=
  match o with
  | [] => [(key, value)]
  | (k, v) :: o' =>
      if String.eqb k key then (k, value) :: o'
      else (k, v) :: setProperty o' key value
  end.

(** The property names an object literal inherits from
    [Object.prototype]; a lookup of one of them on [{}] would not give
    [undefined]. *)
Definition objectPrototypeKeys : list string :=
  ["constructor"; "__defineGetter__"; "__defineSetter__"; "hasOwnProperty";
   "__lookupGetter__"; "__lookupSetter__"; "isPrototypeOf";
   "propertyIsEnumerable"; "toString"; "valueOf"; "__proto__";
   "toLocaleString"].

(** Truthiness of [undefined] or a number that is an integer. *)
Definition truthy (v : option Z) : bool :=
  match v with
  | None => false
  | Some n => negb (n =? 0)
  end.

(** [Array.prototype.sort(comparefn)]. The sort is stable, and with a
    consistent comparator its result does not depend on the algorithm;
    it is modelled by a stable insertion sort: an element goes before the
    first one it compares less than. *)
Fixpoint insertSorted {A : Type} (comparefn : A -> A -> Z) (x : A) (l : list A)
  : list A :=
  match l with
  | [] => [x]
  | y :: l' =>
      if comparefn x y <? 0 then x :: y :: l'
      else y :: insertSorted comparefn x l'
  end.

Definition sort {A : Type} (comparefn : A -> A -> Z) (l : list A) : list A :=
  fold_left (fun sorted x => insertSorted comparefn x sorted) l [].

(** [Array.prototype.every] with a callback that reads and updates a
    variable of its environment: the state [s] is threaded through the
    calls, and the traversal stops at the first [false]. *)
Fixpoint every {A S : Type} (callback : A -> S -> bool * S) (l : list A) (s : S)
  : bool :=
  match l with
  | [] => true
  | x :: l' =>
      let '(ok, s') := callback x s in
      if ok then every callback l' s' else false
  end.

(** [String.prototype.localeCompare] is defined by the host and its
    locale. [rootLocaleCompare] models the default (CLDR root) collation,
    the one of English locales, on strings of ASCII letters: letters are
    compared without regard to case first, and on a tie the first
    difference in case decides, lower case first. *)
Definition isUpper (c : ascii) : bool :=
  let n := N_of_ascii c in ((65 <=? n) && (n <=? 90))%N.

Definition toLower (c : ascii) : ascii :=
  if isUpper c then ascii_of_N (N_of_ascii c + 32) else c.

Fixpoint primaryCompare (a b : string) : comparison :=
  match a, b with
  | EmptyString, EmptyString => Eq
  | EmptyString, String _ _ => Lt
  | String _ _, EmptyString => Gt
  | String x a', String y b' =>
      match (N_of_ascii (toLower x) ?= N_of_ascii (toLower y))%N with
      | Eq => primaryCompare a' b'
      | c => c
      end
  end.

Fixpoint tertiaryCompare (a b : string) : comparison :=
  match a, b with
  | String x a', String y b' =>
      match isUpper x, isUpper y with
      | false, true => Lt
      | true, false => Gt
      | _, _ => tertiaryCompare a' b'
      end
  | _, _ => Eq
  end.

Definition rootLocaleCompare (a b : string) : Z :=
  match primaryCompare a b with
  | Lt => -1
  | Gt => 1
  | Eq =>
      match tertiaryCompare a b with
      | Lt => -1
      | Gt => 1
      | Eq => 0
      end
  end.

(** [Number.isNaN(v)] and [Number.isFinite(v)] for an arbitrary value:
    [false] when [v] is not a number. *)
Definition Number_isNaN (v : Value) : bool :=
  match v with
  | VNumber x => Number.isNaN x
  | _ => false
  end.

Definition Number_isFinite (v : Value) : bool :=
  match v with
  | VNumber x => Number.isFinite x
  | _ => false
  end.

(** [types.includes(type)] on an array of strings. *)
Definition includes (l : list string) (s : string) : bool :=
  existsb (fun x => String.eqb x s) l.

(** [item === other] where [item] is a string and [other] a string or
    [undefined] (an index past the end of an array). *)
Definition strictEqualsString (item : string) (other : option string) : bool :=
  match other with
  | Some s => String.eqb item s
  | None => false
  end.

(** [Array.prototype.forEach] with a callback that updates a variable of
    its environment. *)
Definition forEach {A S : Type} (callback : A -> S -> S) (l : list A) (s : S) : S :=
  fold_left (fun s x => callback x s) l s.

End JS.

Import JS.

Notation "x <- c ;; k" := (bind c (fun x => k))
  (at level 61, c at next level, right associativity).

(** ** The program *)

(** Return string with a native JS type of value. *)
Definition getType (value : Value) : string := typeOf value.

(** Return array with types of items of given array. *)
Definition getTypesOfItems (arr : list Value) : list string :=
  map (fun item => getType item) arr.

(** Return true if all items of array have the same type. [types[0]] is
    [undefined] when the array is empty. *)
Definition allItemsHaveTheSameType (arr : list Value) : bool :=
  let types := getTypesOfItems arr in
  forallb (fun item => strictEqualsString item (nth_error types 0)) types.

(** Return string with a "real" type of value: the [switch] on [typeof],
    whose [object] case falls out of the [switch] to [return type] when no
    test succeeds. *)
Definition getRealType (value : Value) : string :=
  let type := typeOf value in
  if String.eqb type "number" then
    if Number_isNaN value then "NaN"
    else if Number_isFinite value then type
    else "Infinity"
  else if String.eqb type "object" then
    if strictEquals value VNull then "null"
    else if instanceOf value JSArray then "array"
    else if instanceOf value JSDate then "date"
    else if instanceOf value JSRegExp then "regexp"
    else if instanceOf value JSSet then "set"
    else if instanceOf value JSEvent then "event"
    else type
  else type.

(** Return array with real types of items of given array. *)
Definition getRealTypesOfItems (arr : list Value) : list string :=
  map (fun item => getRealType item) arr.

(** Return true if there are no items in array with the same real type.
    The callback of [every] pushes onto the local array [types]. *)
Definition everyItemHasAUniqueRealType (arr : list Value) : bool :=
  every (fun item (types : list string) =>
           let type := getRealType item in
           if includes types type then (false, types)
           else (true, (types ++ [type])%list))
        arr [].

(** The body of the [forEach] in [countRealTypes]: [types[type] += 1] when
    [types[type]] is truthy, [types[type] = 1] otherwise. *)
Definition tally (item : Value) (types : Dictionary) : Dictionary :=
  let type := getRealType item in
  match getProperty types type with
  | Some n =>
      if truthy (Some n) then setProperty types type (n + 1)
      else setProperty types type 1
  | None => setProperty types type 1
  end.

Section Host.

(** The host's [String.prototype.localeCompare]. *)
Variable localeCompare : string -> string -> Z.

(** Return an array of arrays with a type and count of items with this type
    in the input array, sorted by type. *)
Definition countRealTypes (arr : list Value) : list (string * Z) :=
  let types := forEach tally arr [] in
  sort (fun a b => localeCompare (fst a) (fst b)) types.

End Host.

(** Compare arrays of primitives: two arrays by length and then by their
    conversions to strings, anything else with [===]. *)
Definition areEqual (a b : Value) : Completion bool :=
  if instanceOf a JSArray && instanceOf b JSArray then
    if negb (Nat.eqb (arrayLength a) (arrayLength b)) then Normal false
    else
      sa <- ToString a ;;
      sb <- ToString b ;;
      Normal (String.eqb sa sb)
  else Normal (strictEquals a b).

(** ** Notions used to state the properties *)

(** The labels [getRealType] can return. *)
Definition labels : list string :=
  ["undefined"; "object"; "boolean"; "number"; "bigint"; "string"; "symbol";
   "function"; "NaN"; "Infinity"; "null"; "array"; "date"; "regexp"; "set";
   "event"].

(** Sum of the counts of a histogram. *)
Definition totalCount (h : list (string * Z)) : Z :=
  fold_right (fun p acc => snd p + acc) 0 h.

(** Ordinary (code unit) lexicographic order on a list of strings. *)
Fixpoint codeUnitSorted (l : list string) : bool :=
  match l with
  | [] => true
  | a :: l' =>
      match l' with
      | [] => true
      | b :: _ => String.leb a b && codeUnitSorted l'
      end
  end.

(** A comparator is consistent on a set of strings when reversing the
    arguments reverses the sign and "not after" is transitive; it is strict
    when only equal strings compare equal. *)
Record Consistent (cmp : string -> string -> Z) (dom : list string) : Prop := {
  consistent_rev : forall a b, In a dom -> In b dom -> 0 <= cmp a b -> cmp b a <= 0;
  consistent_trans : forall a b c, In a dom -> In b dom -> In c dom ->
      cmp a b <= 0 -> cmp b c <= 0 -> cmp a c <= 0
}.

Definition Strict (cmp : string -> string -> Z) (dom : list string) : Prop :=
  forall a b, In a dom -> In b dom -> cmp a b <= 0 -> cmp b a <= 0 -> a = b.

(** The same conditions, checked by evaluation on a finite set. *)
Definition consistentb (cmp : string -> string -> Z) (dom : list string) : bool :=
  forallb (fun a => forallb (fun b =>
    implb (0 <=? cmp a b) (cmp b a <=? 0) &&
    forallb (fun c =>
      implb ((cmp a b <=? 0) && (cmp b c <=? 0)) (cmp a c <=? 0)) dom) dom) dom.

Definition strictb (cmp : string -> string -> Z) (dom : list string) : bool :=
  forallb (fun a => forallb (fun b =>
    implb ((cmp a b <=? 0) && (cmp b a <=? 0)) (String.eqb a b)) dom) dom.

(** The order of a histogram sorted with the comparator [cmp]. *)
Definition notAfter (cmp : string -> string -> Z) (p q : string * Z) : Prop :=
  cmp (fst p) (fst q) <= 0.

(** The basic type that goes with a real type. *)
Definition basicTypeOf (label : string) : string :=
  if String.eqb label "NaN" || String.eqb label "Infinity" then "number"
  else if includes ["null"; "array"; "date"; "regexp"; "set"; "event"] label
       then "object"
       else label.

(** How many of the labels seen so far are [label]. *)
Definition occurrences (label : string) (seen : list string) : Z :=
  Z.of_nat (count_occ string_dec seen label).

(** [types] is the tally of the labels [seen]: one property per label that
    occurs, holding the number of its occurrences. *)
Record Tallied (seen : list string) (types : Dictionary) : Prop := {
  tallied_keys : NoDup (map fst types);
  tallied_get : forall k,
      getProperty types k =
      if occurrences k seen =? 0 then None else Some (occurrences k seen);
  tallied_total : totalCount types = Z.of_nat (List.length seen)
}.

(** Fixtures of the program's own tests. *)
Definition emptyObject (id : nat) : Value :=
  VObject id OrdinaryObject (Normal "[object Object]").
Definition number123 : Value := VNumber 0x405EC00000000000.
Definition number420 : Value := VNumber 0x407A400000000000.
Definition knownTypes : list Value :=
  [VBoolean true; number420; VString "You found an Easter egg!";
   VArray 1 [VNumber Number.one; VNumber 0x4000000000000000;
             VNumber 0x4008000000000000];
   VObject 2 OrdinaryObject (Normal "[object Object]");
   VFunction 3 (Normal "() => ';)'"); VUndefined; VNull;
   VNumber Number.NaN; VNumber Number.POSITIVE_INFINITY;
   VObject 4 DateObject (Normal "Wed Apr 12 1961 09:07:00 GMT+0300");
   VObject 5 RegExpObject (Normal "/Gagarin/gi");
   VObject 6 SetObject (Normal "[object Set]");
   VSymbol 7; VBigInt 999999999999999969;
   VObject 8 EventObject (Normal "[object Event]")].

(** An array of strings, as the program's functions return them. *)
Definition stringArray (id : nat) (l : list string) : Value :=
  VArray id (map VString l).

(** ** The untyped variant of the classifier

    The untyped file tests a number with the globals [isNaN] and
    [isFinite], which convert their argument with [ToNumber] first. That
    conversion is the host's (it parses strings and calls methods of
    objects, and throws on symbols and big integers); it is a parameter
    here. *)
Module Untyped.
Section Globals.

Variable ToNumber : Value -> Completion Z.

Definition isNaN (v : Value) : Completion bool :=
  x <- ToNumber v ;; Normal (Number.isNaN x).

Definition isFinite (v : Value) : Completion bool :=
  x <- ToNumber v ;; Normal (Number.isFinite x).

Definition getRealType (value : Value) : Completion string :=
  let type := typeOf value in
  if String.eqb type "number" then
    nan <- isNaN value ;;
    if nan then Normal "NaN"
    else
      finite <- isFinite value ;;
      if finite then Normal type else Normal "Infinity"
  else if String.eqb type "object" then
    if strictEquals value VNull then Normal "null"
    else if instanceOf value JSArray then Normal "array"
    else if instanceOf value JSDate then Normal "date"
    else if instanceOf value JSRegExp then Normal "regexp"
    else if instanceOf value JSSet then Normal "set"
    else if instanceOf value JSEvent then Normal "event"
    else Normal type
  else Normal type.

End Globals.
End Untyped.

(** ** The test harness

    The console is the sequence of the calls made on it, oldest first.
    [console.debug] is called with strings and with the compared values;
    a string is passed as the value it is. *)
Inductive ConsoleCall : Type :=
| console_log (s : string)
| console_error (s : string)
| console_debug (v : Value)
| console_group (label : string)
| console_groupEnd.

Definition Console : Type := list ConsoleCall.

Definition newline : string := String "010" "".

Definition testBlock (name : string) (console : Console) : Console :=
  (console ++ [console_groupEnd; console_group ("# " ++ name ++ newline)])%list.

(** [areEqual] is called before anything is printed: when it throws, the
    console is left as it was. *)
Definition test (whatWeTest : string) (actualResult expectedResult : Value)
           (console : Console) : Completion Console :=
  equal <- areEqual actualResult expectedResult ;;
  if equal then
    Normal (console ++ [console_log ("[OK] " ++ whatWeTest ++ newline)])%list
  else
    Normal (console ++
            [console_error ("[FAIL] " ++ whatWeTest);
             console_debug (VString "Expected:");
             console_debug expectedResult;
             console_debug (VString "Actual:");
             console_debug actualResult;
             console_log ""])%list.

(** The depth of group nesting the console is left in: [group] opens a
    group, [groupEnd] closes the innermost one and does nothing when none is
    open. *)
Definition groupStep (depth : nat) (call : ConsoleCall) : nat :=
  match call with
  | console_group _ => S depth
  | console_groupEnd => Nat.pred depth
  | _ => depth
  end.

Definition groupDepth (console : Console) : nat :=
  fold_left groupStep console O.

(** The top level of the file is a sequence of calls of [testBlock] and
    [test] on values; an exception ends it. *)
Inductive Statement : Type :=
| TestBlock (name : string)
| Test (whatWeTest : string) (actualResult expectedResult : Value).

Fixpoint run (script : list Statement) (console : Console)
  : Console * option Error :=
  match script with
  | [] => (console, None)
  | TestBlock name :: script' => run script' (testBlock name console)
  | Test whatWeTest actualResult expectedResult :: script' =>
      match test whatWeTest actualResult expectedResult console with
      | Normal console' => run script' console'
      | Throw e => (console, Some e)
      end
  end.

(** Verdicts printed so far, and tests of a script. *)
Definition isVerdict (call : ConsoleCall) : bool :=
  match call with
  | console_log s => prefix "[OK] " s
  | console_error s => prefix "[FAIL] " s
  | _ => false
  end.

Definition isFailure (call : ConsoleCall) : bool :=
  match call with
  | console_error _ => true
  | _ => false
  end.

Definition isTest (s : Statement) : bool :=
  match s with
  | Test _ _ _ => true
  | TestBlock _ => false
  end.

(** Does [areEqual] find the two values of a test different? *)
Definition fails (s : Statement) : bool :=
  match s with
  | Test _ actualResult expectedResult =>
      match areEqual actualResult expectedResult with
      | Normal false => true
      | _ => false
      end
  | TestBlock _ => false
  end.

(** ** More notions used to state the properties *)

(** A string without a comma. *)
Fixpoint commaFree (s : string) : bool :=
  match s with
  | EmptyString => true
  | String c s' => negb (Ascii.eqb c ",") && commaFree s'
  end.

(** The primitives that convert to a string: all but symbols. *)
Definition isPlainPrimitive (v : Value) : bool :=
  match v with
  | VUndefined | VNull | VBoolean _ | VNumber _ | VBigInt _ | VString _ => true
  | _ => false
  end.

(** ** The program's tests, run on the model *)

Example number_literals :
  map Number.toString
      [Number.one; 0x4026000000000000; 0x405EC00000000000; 0x4074100000000000;
       0x407A400000000000;
       0x3FB999999999999A; 0x444B1AE4D6E2EF50; 0x3E7AD7F29ABCAF48; 0x1;
       Number.NaN; Number.NEGATIVE_INFINITY]
  = ["1"; "11"; "123"; "321"; "420"; "0.1"; "1e+21"; "1e-7"; "5e-324"; "NaN";
     "-Infinity"].
Proof. vm_compute. reflexivity. Qed.

Example test_areEqual :
  areEqual number123 number123 = Normal true /\
  areEqual (VNumber 0x4074100000000000) (VString "321") = Normal false /\
  areEqual (VArray 1 [VNumber Number.one; VNumber 0x4000000000000000])
           (VArray 2 [VNumber Number.one; VNumber 0x4000000000000000])
  = Normal true /\
  areEqual (VArray 1 [VNumber Number.one; VNumber 0x4000000000000000])
           (VArray 2 [VNumber Number.one; VNumber 0x4008000000000000])
  = Normal false /\
  areEqual (stringArray 1 ["array"]) (VBoolean true) = Normal false.
Proof. vm_compute. repeat split; reflexivity. Qed.

Example test_getType :
  map getType
      [VBoolean true; number123; VString "whoo"; VArray 1 []; emptyObject 2;
       VFunction 3 (Normal "() => {}"); VUndefined; VNull]
  = ["boolean"; "number"; "string"; "object"; "object"; "function";
     "undefined"; "object"].
Proof. vm_compute. reflexivity. Qed.

Example test_allItemsHaveTheSameType :
  allItemsHaveTheSameType
    [VNumber 0x4026000000000000; VNumber 0x4028000000000000;
     VNumber 0x402A000000000000] = true /\
  allItemsHaveTheSameType [VString "11"; VString "12"; VString "13"] = true /\
  allItemsHaveTheSameType
    [VString "11"; VObject 1 OrdinaryObject (Normal "12"); VString "13"] = false /\
  allItemsHaveTheSameType
    [number123; VNumber Number.NaN; VNumber Number.POSITIVE_INFINITY] = true /\
  allItemsHaveTheSameType [emptyObject 1] = true /\
  allItemsHaveTheSameType [] = true.
Proof. vm_compute. repeat split; reflexivity. Qed.

Example test_knownTypes :
  areEqual (stringArray 1 (getTypesOfItems knownTypes))
           (stringArray 2
              ["boolean"; "number"; "string"; "object"; "object"; "function";
               "undefined"; "object"; "number"; "number"; "object"; "object";
               "object"; "symbol"; "bigint"; "object"]) = Normal true /\
  areEqual (stringArray 1 (getRealTypesOfItems knownTypes))
           (stringArray 2
              ["boolean"; "number"; "string"; "array"; "object"; "function";
               "undefined"; "null"; "NaN"; "Infinity"; "date"; "regexp"; "set";
               "symbol"; "bigint"; "event"]) = Normal true /\
  getRealTypesOfItems [] = [].
Proof. vm_compute. repeat split; reflexivity. Qed.

Example test_everyItemHasAUniqueRealType :
  everyItemHasAUniqueRealType [VBoolean true; number123; VString "123"] = true /\
  everyItemHasAUniqueRealType [VBoolean true; number123; VBoolean false] = false /\
  everyItemHasAUniqueRealType knownTypes = true /\
  everyItemHasAUniqueRealType [] = true.
Proof. vm_compute. repeat split; reflexivity. Qed.

Example test_countRealTypes :
  countRealTypes rootLocaleCompare
    [VBoolean true; VNull; VBoolean true; VBoolean false; emptyObject 1]
  = [("boolean", 3); ("null", 1); ("object", 1)] /\
  countRealTypes rootLocaleCompare
    [emptyObject 1; VNull; VBoolean true; VBoolean true; VBoolean false]
  = [("boolean", 3); ("null", 1); ("object", 1)] /\
  countRealTypes rootLocaleCompare [] = [].
Proof. vm_compute. repeat split; reflexivity. Qed.

(** The default collation orders the whole vocabulary without regard to
    case: "Infinity" and "NaN" come among the small letters. *)
Example countRealTypes_knownTypes :
  map fst (countRealTypes rootLocaleCompare knownTypes)
  = ["array"; "bigint"; "boolean"; "date"; "event"; "function"; "Infinity";
     "NaN"; "null"; "number"; "object"; "regexp"; "set"; "string"; "symbol";
     "undefined"].
Proof. vm_compute. reflexivity. Qed.

(** ** The classifier *)

(** The labels are distinct from the property names an empty object literal
    inherits, so [types[type]] in [countRealTypes] is [undefined] until the
    program itself creates the property: [getProperty] need only look at
    own properties. *)
Lemma labels_not_inherited :
  forall label, In label labels -> ~ In label objectPrototypeKeys.
Proof.
  intros label Hl Hp.
  assert (E : existsb (fun k => existsb (String.eqb k) objectPrototypeKeys) labels = true).
  { apply existsb_exists. exists label. split; [assumption |].
    apply existsb_exists. exists label. split; [assumption | apply String.eqb_refl]. }
  vm_compute in E. discriminate E.
Qed.

Lemma getRealType_number (x : Z) :
  getRealType (VNumber x) =
  if Number.isNaN x then "NaN"
  else if Number.isFinite x then "number" else "Infinity".
Proof. reflexivity. Qed.

Lemma getRealType_object (id : nat) (cls : Class) (str : Completion string) :
  getRealType (VObject id cls str) =
  match cls with
  | DateObject => "date"
  | RegExpObject => "regexp"
  | SetObject => "set"
  | EventObject => "event"
  | OrdinaryObject => "object"
  end.
Proof. destruct cls; reflexivity. Qed.

Lemma getRealType_in_labels (v : Value) : In (getRealType v) labels.
Proof.
  destruct v as [| | b | x | z | s | i | i str | i items | i cls str].
  4: { rewrite getRealType_number.
       destruct (Number.isNaN x); [cbv; tauto |].
       destruct (Number.isFinite x); cbv; tauto. }
  9: { rewrite getRealType_object. destruct cls; cbv; tauto. }
  all: cbv; tauto.
Qed.

Lemma labels_nonempty (label : string) : In label labels -> label <> "".
Proof.
  intros H E. subst label.
  assert (F : existsb (String.eqb "") labels = true).
  { apply existsb_exists. exists "". split; [assumption | reflexivity]. }
  vm_compute in F. discriminate F.
Qed.

Lemma getType_of_getRealType (v : Value) :
  getType v = basicTypeOf (getRealType v).
Proof.
  destruct v as [| | b | x | z | s | i | i str | i items | i cls str].
  4: { rewrite getRealType_number.
       destruct (Number.isNaN x); [reflexivity |].
       destruct (Number.isFinite x); reflexivity. }
  9: { rewrite getRealType_object. destruct cls; reflexivity. }
  all: reflexivity.
Qed.

(** C5: the classifier maps the distinguished inputs to fixed labels: NaN to
    "NaN", both infinities to "Infinity", null to "null", an empty array to
    "array" and an empty object literal to "object". *)
Theorem getRealType_distinguished (arrayId objectId : nat) :
  getRealType (VNumber Number.NaN) = "NaN" /\
  getRealType (VNumber Number.POSITIVE_INFINITY) = "Infinity" /\
  getRealType (VNumber Number.NEGATIVE_INFINITY) = "Infinity" /\
  getRealType VNull = "null" /\
  getRealType (VArray arrayId []) = "array" /\
  getRealType (emptyObject objectId) = "object".
Proof. repeat split; reflexivity. Qed.

(** C7: the classifier is total and never throws: every value, [undefined]
    included, has a label, which is a non-empty string of the vocabulary. *)
Theorem getRealType_total (v : Value) :
  (exists label, getRealType v = label /\ label <> "" /\ In label labels) /\
  getRealType VUndefined = "undefined".
Proof.
  split; [| reflexivity].
  exists (getRealType v). split; [reflexivity |].
  split; [apply labels_nonempty |]; apply getRealType_in_labels.
Qed.

(** ** allItemsHaveTheSameType *)

Lemma allItemsHaveTheSameType_cons (first : Value) (rest : list Value) :
  allItemsHaveTheSameType (first :: rest) = true <->
  forall x, In x (first :: rest) -> getType x = getType first.
Proof.
  unfold allItemsHaveTheSameType, getTypesOfItems.
  rewrite forallb_forall. cbn [map nth_error strictEqualsString]. split.
  - intros H x Hx. apply String.eqb_eq. apply H.
    change (getType first :: map (fun item => getType item) rest)
      with (map (fun item => getType item) (first :: rest)).
    apply in_map_iff. exists x. split; [reflexivity | assumption].
  - intros H t Ht.
    change (getType first :: map (fun item => getType item) rest)
      with (map (fun item => getType item) (first :: rest)) in Ht.
    apply in_map_iff in Ht. destruct Ht as [x [<- Hx]].
    apply String.eqb_eq. apply H. assumption.
Qed.

Lemma allItemsHaveTheSameType_basic (arr : list Value) :
  allItemsHaveTheSameType arr = true <->
  match arr with
  | [] => True
  | first :: _ => forall x, In x arr -> getType x = getType first
  end.
Proof.
  destruct arr as [| first rest].
  - split; [trivial | reflexivity].
  - apply allItemsHaveTheSameType_cons.
Qed.

(** C2, as the code has it: [allItemsHaveTheSameType] returns true exactly
    when the basic type ([getType], that is [typeof]) of every item equals
    the basic type of the first item; for the empty array it returns true. *)
Theorem allItemsHaveTheSameType_iff (arr : list Value) :
  (allItemsHaveTheSameType arr = true <->
   match arr with
   | [] => True
   | first :: _ => forall x, In x arr -> getType x = getType first
   end) /\
  allItemsHaveTheSameType [] = true.
Proof. split; [apply allItemsHaveTheSameType_basic | reflexivity]. Qed.

(** C2, as stated with the fine-grained labels, fails: 123, NaN and Infinity
    are all numbers for [typeof], so the function returns true, although
    their real types differ from that of the first item. *)
Lemma allItemsHaveTheSameType_not_real_types :
  let arr := [number123; VNumber Number.NaN; VNumber Number.POSITIVE_INFINITY] in
  allItemsHaveTheSameType arr = true /\
  getRealTypesOfItems arr = ["number"; "NaN"; "Infinity"] /\
  ~ (forall x, In x arr -> getRealType x = getRealType number123).
Proof.
  cbv zeta. split; [reflexivity |]. split; [reflexivity |].
  intros H. specialize (H (VNumber Number.NaN)).
  assert (E : getRealType (VNumber Number.NaN) = getRealType number123).
  { apply H. right. left. reflexivity. }
  vm_compute in E. discriminate E.
Qed.

(** C10: the fine-grained classification refines the basic one: values with
    the same real type have the same basic type, and an array whose items
    all share a real type passes [allItemsHaveTheSameType]. *)
Theorem getRealType_refines_getType :
  (forall a b, getRealType a = getRealType b -> getType a = getType b) /\
  (forall arr,
      (forall x y, In x arr -> In y arr -> getRealType x = getRealType y) ->
      allItemsHaveTheSameType arr = true).
Proof.
  split.
  - intros a b H. rewrite !getType_of_getRealType, H. reflexivity.
  - intros arr H. apply allItemsHaveTheSameType_basic.
    destruct arr as [| first rest]; [exact I |].
    intros x Hx. rewrite !getType_of_getRealType.
    f_equal. apply H; [assumption | left; reflexivity].
Qed.

Lemma getRealType_refines_getType_witness :
  getType (VObject 1 DateObject (Normal "1961")) =
  getType (VObject 2 DateObject (Normal "1969")) /\
  allItemsHaveTheSameType [VNull; VNull] = true.
Proof.
  split.
  - apply (proj1 getRealType_refines_getType). reflexivity.
  - apply (proj2 getRealType_refines_getType).
    intros x y [<- | [<- | []]] [<- | [<- | []]]; reflexivity.
Defined.

(** ** everyItemHasAUniqueRealType *)

Lemma includes_In (l : list string) (s : string) :
  includes l s = true <-> In s l.
Proof.
  unfold includes. rewrite existsb_exists. split.
  - intros [x [Hx E]]. apply String.eqb_eq in E. subst x. assumption.
  - intros H. exists s. split; [assumption | apply String.eqb_refl].
Qed.

(** The traversal started with [types] already pushed. *)
Lemma every_unique_from (arr : list Value) :
  forall types : list string,
    NoDup types ->
    (every (fun item (types : list string) =>
              let type := getRealType item in
              if includes types type then (false, types)
              else (true, (types ++ [type])%list)) arr types = true
     <-> NoDup (types ++ map getRealType arr)%list).
Proof.
  induction arr as [| item rest IH]; intros types Hnd; cbn [every map].
  - rewrite app_nil_r. tauto.
  - cbv zeta. destruct (includes types (getRealType item)) eqn:E.
    + split; [discriminate |]. intros H. exfalso.
      apply includes_In in E. apply NoDup_remove_2 in H.
      apply H. apply in_or_app. left. assumption.
    + assert (Hfresh : ~ In (getRealType item) types).
      { intros HIn. apply includes_In in HIn. congruence. }
      rewrite IH.
      * rewrite <- app_assoc. reflexivity.
      * apply NoDup_app; [assumption | repeat constructor; intros [] |].
        intros a Ha [<- | []]. contradiction.
Qed.

(** C6: [everyItemHasAUniqueRealType] returns true exactly when no two items
    of the array have the same real type; for the empty array it returns
    true. *)
Theorem everyItemHasAUniqueRealType_iff (arr : list Value) :
  (everyItemHasAUniqueRealType arr = true <-> NoDup (getRealTypesOfItems arr)) /\
  everyItemHasAUniqueRealType [] = true.
Proof.
  split; [| reflexivity].
  unfold everyItemHasAUniqueRealType, getRealTypesOfItems.
  rewrite every_unique_from by constructor. reflexivity.
Qed.

(** ** Dictionaries *)

Lemma getProperty_setProperty_same (o : Dictionary) (k : string) (v : Z) :
  getProperty (setProperty o k v) k = Some v.
Proof.
  induction o as [| [k' v'] o IH]; cbn.
  - rewrite String.eqb_refl. reflexivity.
  - destruct (String.eqb k' k) eqn:E; cbn; rewrite E; [reflexivity | assumption].
Qed.

Lemma getProperty_setProperty_other (o : Dictionary) (k k' : string) (v : Z) :
  k <> k' -> getProperty (setProperty o k v) k' = getProperty o k'.
Proof.
  intros Hne. induction o as [| [k0 v0] o IH]; cbn.
  - destruct (String.eqb k k') eqn:E; [apply String.eqb_eq in E; contradiction | reflexivity].
  - destruct (String.eqb k0 k) eqn:E; cbn.
    + apply String.eqb_eq in E. subst k0.
      destruct (String.eqb k k') eqn:E'; [apply String.eqb_eq in E'; contradiction | reflexivity].
    + rewrite IH. reflexivity.
Qed.

Lemma getProperty_None (o : Dictionary) (k : string) :
  getProperty o k = None <-> ~ In k (map fst o).
Proof.
  induction o as [| [k' v'] o IH]; cbn.
  - tauto.
  - destruct (String.eqb k' k) eqn:E.
    + apply String.eqb_eq in E. split; [discriminate | tauto].
    + apply String.eqb_neq in E. tauto.
Qed.

Lemma getProperty_In (o : Dictionary) (k : string) (v : Z) :
  getProperty o k = Some v -> In (k, v) o.
Proof.
  induction o as [| [k' v'] o IH]; cbn; [discriminate |].
  destruct (String.eqb k' k) eqn:E.
  - apply String.eqb_eq in E. intros [= ->]. left. congruence.
  - intros H. right. apply IH. assumption.
Qed.

Lemma In_getProperty (o : Dictionary) (k : string) (v : Z) :
  NoDup (map fst o) -> In (k, v) o -> getProperty o k = Some v.
Proof.
  induction o as [| [k' v'] o IH]; cbn; [tauto |].
  intros Hnd [E | HIn].
  - injection E as -> ->. rewrite String.eqb_refl. reflexivity.
  - inversion Hnd as [| ? ? Hfresh Hnd']; subst.
    destruct (String.eqb k' k) eqn:E.
    + apply String.eqb_eq in E. subst k'. exfalso. apply Hfresh.
      apply in_map_iff. exists (k, v). split; [reflexivity | assumption].
    + apply IH; assumption.
Qed.

Lemma keys_setProperty (o : Dictionary) (k : string) (v : Z) :
  map fst (setProperty o k v) =
  match getProperty o k with
  | Some _ => map fst o
  | None => (map fst o ++ [k])%list
  end.
Proof.
  induction o as [| [k' v'] o IH]; cbn; [reflexivity |].
  destruct (String.eqb k' k) eqn:E; cbn; [reflexivity |].
  rewrite IH. destruct (getProperty o k); reflexivity.
Qed.

Lemma NoDup_setProperty (o : Dictionary) (k : string) (v : Z) :
  NoDup (map fst o) -> NoDup (map fst (setProperty o k v)).
Proof.
  intros Hnd. rewrite keys_setProperty.
  destruct (getProperty o k) eqn:E; [assumption |].
  apply getProperty_None in E.
  apply NoDup_app; [assumption | repeat constructor; intros [] |].
  intros a Ha [<- | []]. contradiction.
Qed.

Lemma totalCount_setProperty (o : Dictionary) (k : string) (v : Z) :
  totalCount (setProperty o k v) =
  totalCount o + v - match getProperty o k with Some n => n | None => 0 end.
Proof.
  induction o as [| [k' v'] o IH]; cbn.
  - lia.
  - destruct (String.eqb k' k) eqn:E; cbn; [lia |].
    unfold totalCount in IH. rewrite IH. lia.
Qed.

Lemma totalCount_Permutation (h h' : list (string * Z)) :
  Permutation h h' -> totalCount h = totalCount h'.
Proof.
  unfold totalCount. induction 1; cbn in *; lia.
Qed.

(** ** The tally of countRealTypes *)

Lemma occurrences_snoc (k label : string) (seen : list string) :
  occurrences k (seen ++ [label]) =
  occurrences k seen + (if String.eqb label k then 1 else 0).
Proof.
  unfold occurrences. rewrite count_occ_app. cbn [count_occ].
  destruct (string_dec label k) as [E | E].
  - subst. rewrite String.eqb_refl. lia.
  - apply String.eqb_neq in E. rewrite E. lia.
Qed.

Lemma occurrences_nonneg (k : string) (seen : list string) : 0 <= occurrences k seen.
Proof. unfold occurrences. lia. Qed.

Lemma occurrences_In (k : string) (seen : list string) :
  occurrences k seen <> 0 <-> In k seen.
Proof.
  unfold occurrences. rewrite (count_occ_In string_dec). lia.
Qed.

Lemma Tallied_nil : Tallied [] [].
Proof. split; [constructor | reflexivity | reflexivity]. Qed.

Lemma tally_setProperty (item : Value) (seen : list string) (types : Dictionary) :
  Tallied seen types ->
  tally item types =
  setProperty types (getRealType item) (occurrences (getRealType item) seen + 1).
Proof.
  intros [_ Hget _]. unfold tally. rewrite (Hget (getRealType item)).
  destruct (occurrences (getRealType item) seen =? 0) eqn:E.
  - apply Z.eqb_eq in E. rewrite E. reflexivity.
  - cbn [truthy]. rewrite E. reflexivity.
Qed.

Lemma tally_Tallied (item : Value) (seen : list string) (types : Dictionary) :
  Tallied seen types ->
  Tallied (seen ++ [getRealType item]) (tally item types).
Proof.
  intros T. rewrite (tally_setProperty item seen types T).
  destruct T as [Hkeys Hget Htotal].
  set (type := getRealType item).
  pose proof (occurrences_nonneg type seen) as Hnonneg. split.
  - apply NoDup_setProperty. assumption.
  - intros k. rewrite occurrences_snoc.
    destruct (String.eqb type k) eqn:E.
    + apply String.eqb_eq in E. subst k.
      rewrite getProperty_setProperty_same.
      destruct (occurrences type seen + 1 =? 0) eqn:E0; [lia | reflexivity].
    + apply String.eqb_neq in E.
      rewrite getProperty_setProperty_other by assumption.
      rewrite Z.add_0_r. apply Hget.
  - rewrite totalCount_setProperty, (Hget type), Htotal, length_app.
    cbn [List.length].
    destruct (occurrences type seen =? 0) eqn:E; [apply Z.eqb_eq in E |]; lia.
Qed.

Lemma forEach_tally_Tallied (arr : list Value) :
  forall (seen : list string) (types : Dictionary),
    Tallied seen types ->
    Tallied (seen ++ getRealTypesOfItems arr) (forEach tally arr types).
Proof.
  unfold forEach, getRealTypesOfItems.
  induction arr as [| item rest IH]; intros seen types H; cbn [fold_left map].
  - rewrite app_nil_r. assumption.
  - replace (seen ++ getRealType item :: map (fun item => getRealType item) rest)%list
      with ((seen ++ [getRealType item]) ++ map (fun item => getRealType item) rest)%list
      by (rewrite <- app_assoc; reflexivity).
    apply IH. apply tally_Tallied. assumption.
Qed.

Lemma countRealTypes_Tallied (arr : list Value) :
  Tallied (getRealTypesOfItems arr) (forEach tally arr []).
Proof. apply (forEach_tally_Tallied arr [] []). apply Tallied_nil. Qed.

Lemma Tallied_keys_iff (seen : list string) (types : Dictionary) (k : string) :
  Tallied seen types -> (In k (map fst types) <-> In k seen).
Proof.
  intros [_ Hget _]. rewrite <- (occurrences_In k seen).
  specialize (Hget k). destruct (occurrences k seen =? 0) eqn:E.
  - apply Z.eqb_eq in E. apply getProperty_None in Hget.
    split; [intros H; contradiction | intros H; contradiction].
  - apply Z.eqb_neq in E. split; [intros _; assumption |]. intros _.
    apply getProperty_In in Hget.
    apply in_map_iff. exists (k, occurrences k seen). split; [reflexivity | assumption].
Qed.

Lemma Tallied_entry (seen : list string) (types : Dictionary) (k : string) (c : Z) :
  Tallied seen types ->
  (In (k, c) types <-> c = occurrences k seen /\ 1 <= c).
Proof.
  intros [Hkeys Hget _]. pose proof (occurrences_nonneg k seen) as Hnn.
  specialize (Hget k). split.
  - intros HIn. apply In_getProperty in HIn; [| assumption].
    rewrite HIn in Hget. destruct (occurrences k seen =? 0) eqn:E; [discriminate |].
    apply Z.eqb_neq in E. injection Hget as ->. lia.
  - intros [-> Hc]. apply getProperty_In. rewrite Hget.
    destruct (occurrences k seen =? 0) eqn:E; [lia | reflexivity].
Qed.

(** ** Sorting *)

Section SortFacts.

Context {A : Type} (cmp : A -> A -> Z).

Lemma insertSorted_Permutation (x : A) (l : list A) :
  Permutation (insertSorted cmp x l) (x :: l).
Proof.
  induction l as [| y l IH]; cbn.
  - apply Permutation_refl.
  - destruct (cmp x y <? 0).
    + apply Permutation_refl.
    + apply perm_trans with (y :: x :: l); [apply perm_skip; exact IH | apply perm_swap].
Qed.

Lemma sort_from_Permutation (l : list A) :
  forall sorted,
    Permutation (fold_left (fun sorted x => insertSorted cmp x sorted) l sorted)
                (sorted ++ l).
Proof.
  induction l as [| x l IH]; intros sorted; cbn [fold_left].
  - rewrite app_nil_r. apply Permutation_refl.
  - eapply perm_trans; [apply IH |].
    eapply perm_trans;
      [apply Permutation_app_tail; apply insertSorted_Permutation |].
    cbn. apply Permutation_middle.
Qed.

Lemma sort_Permutation (l : list A) : Permutation (sort cmp l) l.
Proof. apply (sort_from_Permutation l []). Qed.

(** On a domain [D] where the comparator is consistent, sorting sorts. *)
Variable D : A -> Prop.
Hypothesis cmp_rev : forall a b, D a -> D b -> 0 <= cmp a b -> cmp b a <= 0.
Hypothesis cmp_trans : forall a b c, D a -> D b -> D c ->
    cmp a b <= 0 -> cmp b c <= 0 -> cmp a c <= 0.

Lemma insertSorted_sorted (x : A) (l : list A) :
  D x -> Forall D l ->
  StronglySorted (fun a b => cmp a b <= 0) l ->
  StronglySorted (fun a b => cmp a b <= 0) (insertSorted cmp x l).
Proof.
  intros Hx. induction l as [| y l IH]; intros HD Hs; cbn.
  - repeat constructor.
  - inversion HD as [| ? ? Hy HDl]; subst.
    inversion Hs as [| ? ? Hsl Hle]; subst.
    destruct (cmp x y <? 0) eqn:E.
    + apply Z.ltb_lt in E. constructor; [assumption |].
      constructor; [lia |].
      rewrite Forall_forall in *. intros z Hz.
      apply cmp_trans with y; auto; lia.
    + apply Z.ltb_ge in E. constructor; [apply IH; assumption |].
      apply Permutation_Forall with (x :: l);
        [apply Permutation_sym, insertSorted_Permutation |].
      constructor; [apply cmp_rev; assumption | assumption].
Qed.

Lemma sort_from_sorted (l : list A) :
  forall sorted,
    Forall D l -> Forall D sorted ->
    StronglySorted (fun a b => cmp a b <= 0) sorted ->
    StronglySorted (fun a b => cmp a b <= 0)
                   (fold_left (fun sorted x => insertSorted cmp x sorted) l sorted).
Proof.
  induction l as [| x l IH]; intros sorted HDl HDs Hs; cbn [fold_left].
  - assumption.
  - inversion HDl as [| ? ? Hx HDl']; subst. apply IH.
    + assumption.
    + apply Permutation_Forall with (x :: sorted);
        [apply Permutation_sym, insertSorted_Permutation | constructor; assumption].
    + apply insertSorted_sorted; assumption.
Qed.

Lemma sort_sorted (l : list A) :
  Forall D l -> StronglySorted (fun a b => cmp a b <= 0) (sort cmp l).
Proof.
  intros H. apply sort_from_sorted; [assumption | constructor | constructor].
Qed.

End SortFacts.

Lemma consistentb_sound (cmp : string -> string -> Z) (dom : list string) :
  consistentb cmp dom = true -> Consistent cmp dom.
Proof.
  unfold consistentb. rewrite forallb_forall. intros H. split.
  - intros a b Ha Hb Hab. specialize (H a Ha).
    rewrite forallb_forall in H. specialize (H b Hb).
    apply andb_true_iff in H. destruct H as [H _].
    destruct (0 <=? cmp a b) eqn:E; [| lia].
    cbn in H. lia.
  - intros a b c Ha Hb Hc Hab Hbc. specialize (H a Ha).
    rewrite forallb_forall in H. specialize (H b Hb).
    apply andb_true_iff in H. destruct H as [_ H].
    rewrite forallb_forall in H. specialize (H c Hc).
    destruct (cmp a b <=? 0) eqn:E1; [| lia].
    destruct (cmp b c <=? 0) eqn:E2; [| lia].
    cbn in H. lia.
Qed.

Lemma strictb_sound (cmp : string -> string -> Z) (dom : list string) :
  strictb cmp dom = true -> Strict cmp dom.
Proof.
  unfold strictb. rewrite forallb_forall. intros H a b Ha Hb Hab Hba.
  specialize (H a Ha). rewrite forallb_forall in H. specialize (H b Hb).
  destruct (cmp a b <=? 0) eqn:E1; [| lia].
  destruct (cmp b a <=? 0) eqn:E2; [| lia].
  cbn in H. apply String.eqb_eq. assumption.
Qed.

(** Two histograms with the same entries, each sorted by a strict
    comparator and without repeated labels, are the same sequence. *)
Lemma sorted_histogram_unique (cmp : string -> string -> Z) (dom : list string)
      (h1 : list (string * Z)) :
  Strict cmp dom ->
  forall h2,
    Forall (fun p => In (fst p) dom) h1 ->
    NoDup (map fst h1) ->
    Permutation h1 h2 ->
    StronglySorted (notAfter cmp) h1 ->
    StronglySorted (notAfter cmp) h2 ->
    h1 = h2.
Proof.
  intros Hstrict. induction h1 as [| a h1 IH]; intros h2 Hdom Hnd Hperm Hs1 Hs2.
  - apply Permutation_nil in Hperm. congruence.
  - destruct h2 as [| b h2].
    { apply Permutation_sym, Permutation_nil in Hperm. discriminate. }
    inversion Hdom as [| ? ? Ha Hdom']; subst.
    inversion Hnd as [| ? ? Hfresh Hnd']; subst.
    inversion Hs1 as [| ? ? Hs1' Hle1]; subst.
    inversion Hs2 as [| ? ? Hs2' Hle2]; subst.
    assert (Hab : a = b).
    { assert (HaIn : In a (b :: h2))
        by (apply Permutation_in with (a :: h1); [assumption | left; reflexivity]).
      assert (HbIn : In b (a :: h1))
        by (apply Permutation_in with (b :: h2);
            [apply Permutation_sym; assumption | left; reflexivity]).
      destruct HaIn as [E | HaIn]; [congruence |].
      destruct HbIn as [E | HbIn]; [congruence |].
      exfalso. apply Hfresh.
      rewrite Forall_forall in Hle1, Hle2, Hdom'.
      assert (Hkey : fst a = fst b).
      { apply Hstrict; [assumption | apply Hdom'; assumption | |].
        - apply Hle1. assumption.
        - apply Hle2. assumption. }
      rewrite Hkey. apply in_map. assumption. }
    subst b. f_equal. apply IH; try assumption.
    apply Permutation_cons_inv with a. assumption.
Qed.

Lemma NoDup_entries (types : Dictionary) : NoDup (map fst types) -> NoDup types.
Proof. apply NoDup_map_inv. Qed.

Lemma tally_keys_in_labels (arr : list Value) :
  Forall (fun p => In (fst p) labels) (forEach tally arr []).
Proof.
  apply Forall_forall. intros p Hp.
  assert (H : In (fst p) (getRealTypesOfItems arr)).
  { apply (Tallied_keys_iff _ _ (fst p) (countRealTypes_Tallied arr)).
    apply in_map. assumption. }
  unfold getRealTypesOfItems in H. apply in_map_iff in H.
  destruct H as [v [<- _]]. apply getRealType_in_labels.
Qed.

(** The tallies of two arrangements of the same items have the same
    entries. *)
Lemma tally_Permutation (arr1 arr2 : list Value) :
  Permutation arr1 arr2 ->
  Permutation (forEach tally arr1 []) (forEach tally arr2 []).
Proof.
  intros Hperm.
  pose proof (countRealTypes_Tallied arr1) as T1.
  pose proof (countRealTypes_Tallied arr2) as T2.
  apply NoDup_Permutation.
  - apply NoDup_entries, (tallied_keys _ _ T1).
  - apply NoDup_entries, (tallied_keys _ _ T2).
  - intros [k c].
    rewrite (Tallied_entry _ _ k c T1), (Tallied_entry _ _ k c T2).
    assert (E : occurrences k (getRealTypesOfItems arr1)
                = occurrences k (getRealTypesOfItems arr2)).
    { unfold occurrences. f_equal.
      apply (Permutation_count_occ string_dec).
      unfold getRealTypesOfItems. apply Permutation_map. assumption. }
    rewrite E. reflexivity.
Qed.

(** ** countRealTypes *)

Section CountRealTypes.

Variable localeCompare : string -> string -> Z.

Lemma countRealTypes_Permutation_tally (arr : list Value) :
  Permutation (countRealTypes localeCompare arr) (forEach tally arr []).
Proof. unfold countRealTypes. apply sort_Permutation. Qed.

(** C3: the counts of [countRealTypes arr] sum to the length of [arr], and
    the labels that appear in it are exactly the real types of the items of
    [arr]. *)
Theorem countRealTypes_round_trip (arr : list Value) :
  totalCount (countRealTypes localeCompare arr) = Z.of_nat (List.length arr) /\
  (forall label,
      In label (map fst (countRealTypes localeCompare arr)) <->
      In label (getRealTypesOfItems arr)).
Proof.
  pose proof (countRealTypes_Tallied arr) as T.
  pose proof (countRealTypes_Permutation_tally arr) as P.
  split.
  - rewrite (totalCount_Permutation _ _ P), (tallied_total _ _ T).
    unfold getRealTypesOfItems. rewrite length_map. reflexivity.
  - intros label. rewrite <- (Tallied_keys_iff _ _ label T).
    split; apply Permutation_in, Permutation_map;
      [assumption | apply Permutation_sym; assumption].
Qed.

(** C4: [countRealTypes] of the empty array is the empty sequence; every
    count of a result is at least 1, and no label appears twice in it. *)
Theorem countRealTypes_well_formed (arr : list Value) :
  countRealTypes localeCompare [] = [] /\
  Forall (fun entry => 1 <= snd entry) (countRealTypes localeCompare arr) /\
  NoDup (map fst (countRealTypes localeCompare arr)).
Proof.
  pose proof (countRealTypes_Tallied arr) as T.
  pose proof (countRealTypes_Permutation_tally arr) as P.
  split; [reflexivity |]. split.
  - apply Permutation_Forall with (forEach tally arr []);
      [apply Permutation_sym; assumption |].
    apply Forall_forall. intros [k c] HIn.
    apply (Tallied_entry _ _ k c T) in HIn. cbn. tauto.
  - apply Permutation_NoDup with (map fst (forEach tally arr []));
      [apply Permutation_map, Permutation_sym; assumption |].
    apply (tallied_keys _ _ T).
Qed.

Lemma countRealTypes_sorted_on_labels (arr : list Value) :
  Consistent localeCompare labels ->
  StronglySorted (notAfter localeCompare) (countRealTypes localeCompare arr).
Proof.
  intros [Hrev Htrans]. unfold countRealTypes, notAfter.
  apply (sort_sorted (fun a b : string * Z => localeCompare (fst a) (fst b))
                     (fun p => In (fst p) labels)).
  - intros a b Ha Hb. apply Hrev; assumption.
  - intros a b c Ha Hb Hc. apply Htrans; assumption.
  - apply tally_keys_in_labels.
Qed.

(** C1, as the code has it: the pairs returned by [countRealTypes] are
    sorted by label in the order of the host's locale-sensitive comparison
    [localeCompare] (every pair is not after the pairs that follow it),
    whenever that comparison is a consistent comparator on the labels; the
    result is a function of the array and of that comparison. *)
Theorem countRealTypes_sorted_by_localeCompare (arr : list Value) :
  Consistent localeCompare labels ->
  StronglySorted (notAfter localeCompare) (countRealTypes localeCompare arr).
Proof. apply countRealTypes_sorted_on_labels. Qed.

(** C9: [countRealTypes] is permutation-invariant: on two arrays that hold
    the same items in different orders it returns the same sequence of
    pairs, the host's comparison being consistent and strict on labels. *)
Theorem countRealTypes_permutation_invariant (arr1 arr2 : list Value) :
  Consistent localeCompare labels ->
  Strict localeCompare labels ->
  Permutation arr1 arr2 ->
  countRealTypes localeCompare arr1 = countRealTypes localeCompare arr2.
Proof.
  intros Hcons Hstrict Hperm.
  apply (sorted_histogram_unique localeCompare labels); try assumption.
  - apply Permutation_Forall with (forEach tally arr1 []);
      [apply Permutation_sym, countRealTypes_Permutation_tally
      | apply tally_keys_in_labels].
  - apply Permutation_NoDup with (map fst (forEach tally arr1 []));
      [apply Permutation_map, Permutation_sym, countRealTypes_Permutation_tally |].
    apply (tallied_keys _ _ (countRealTypes_Tallied arr1)).
  - eapply perm_trans; [apply countRealTypes_Permutation_tally |].
    eapply perm_trans; [apply tally_Permutation; eassumption |].
    apply Permutation_sym, countRealTypes_Permutation_tally.
  - apply countRealTypes_sorted_on_labels. assumption.
  - apply countRealTypes_sorted_on_labels. assumption.
Qed.

End CountRealTypes.

Lemma countRealTypes_sorted_by_localeCompare_witness :
  StronglySorted (notAfter rootLocaleCompare)
    (countRealTypes rootLocaleCompare
       [emptyObject 1; VNull; VBoolean true; VBoolean true; VBoolean false]).
Proof.
  apply countRealTypes_sorted_by_localeCompare.
  apply consistentb_sound. vm_compute. reflexivity.
Defined.

Lemma countRealTypes_permutation_invariant_witness :
  countRealTypes rootLocaleCompare
    [VBoolean true; VNull; VBoolean true; VBoolean false; emptyObject 1] =
  countRealTypes rootLocaleCompare
    [emptyObject 1; VNull; VBoolean true; VBoolean true; VBoolean false].
Proof.
  apply countRealTypes_permutation_invariant.
  - apply consistentb_sound. vm_compute. reflexivity.
  - apply strictb_sound. vm_compute. reflexivity.
  - apply Permutation_sym.
    apply (Permutation_cons_app
             [VBoolean true; VNull; VBoolean true; VBoolean false] []).
    cbn [app].
    apply (Permutation_cons_app [VBoolean true] [VBoolean true; VBoolean false]).
    apply Permutation_refl.
Defined.

(** C1, as stated with the ordinary code-unit order, fails under the
    default collation: "boolean" comes before "NaN" in the result, and
    after it in code-unit order, where capitals precede small letters. *)
Lemma countRealTypes_not_code_unit_sorted :
  countRealTypes rootLocaleCompare [VNumber Number.NaN; VBoolean true]
  = [("boolean", 1); ("NaN", 1)] /\
  codeUnitSorted
    (map fst (countRealTypes rootLocaleCompare [VNumber Number.NaN; VBoolean true]))
  = false /\
  String.ltb "NaN" "boolean" = true.
Proof. repeat split; reflexivity. Qed.

(** ** areEqual *)

Lemma instanceOf_JSArray (a : Value) :
  instanceOf a JSArray = true -> exists id items, a = VArray id items.
Proof.
  destruct a as [| | b | x | z | s | i | i str | i items | i cls str];
    try discriminate.
  - intros _. exists i, items. reflexivity.
  - destruct cls; discriminate.
Qed.

Lemma strictEquals_array_other (id : nat) (items : list Value) (b : Value) :
  instanceOf b JSArray = false ->
  strictEquals (VArray id items) b = false /\
  strictEquals b (VArray id items) = false.
Proof.
  destruct b; cbn; intros H; try discriminate; split; reflexivity.
Qed.

Lemma areEqual_arrays (i j : nat) (l m : list Value) :
  areEqual (VArray i l) (VArray j m) =
  if Nat.eqb (List.length l) (List.length m)
  then sa <- ToString (VArray i l) ;;
       sb <- ToString (VArray j m) ;;
       Normal (String.eqb sa sb)
  else Normal false.
Proof.
  unfold areEqual. cbn [instanceOf andb arrayLength].
  destruct (Nat.eqb (List.length l) (List.length m)); reflexivity.
Qed.

(** The conversion of an array does not depend on its identity. *)
Lemma ToString_array_identity (i j : nat) (l : list Value) :
  ToString (VArray i l) = ToString (VArray j l).
Proof. reflexivity. Qed.

(** C8, as the code has it: two sequences are equal for [areEqual] exactly
    when they have the same length and the same conversion to a string
    (their items' conversions joined by commas); in particular two
    sequences of the same items are equal when that conversion does not
    throw; and a sequence is never equal to a value that is not one. *)
Theorem areEqual_sequences :
  (forall (i j : nat) (l m : list Value),
      areEqual (VArray i l) (VArray j m) = Normal true <->
      List.length l = List.length m /\
      exists s, ToString (VArray i l) = Normal s /\
                ToString (VArray j m) = Normal s) /\
  (forall (i j : nat) (l : list Value) (s : string),
      ToString (VArray i l) = Normal s ->
      areEqual (VArray i l) (VArray j l) = Normal true) /\
  (forall a b : Value,
      instanceOf a JSArray = true -> instanceOf b JSArray = false ->
      areEqual a b = Normal false /\ areEqual b a = Normal false).
Proof.
  split; [| split].
  - intros i j l m. rewrite areEqual_arrays. split.
    + destruct (Nat.eqb (List.length l) (List.length m)) eqn:E; [| discriminate].
      apply Nat.eqb_eq in E.
      destruct (ToString (VArray i l)) as [sa | e]; [| discriminate].
      destruct (ToString (VArray j m)) as [sb | e]; [| discriminate].
      cbn [bind]. intros [= H]. apply String.eqb_eq in H. subst sb.
      split; [assumption |]. exists sa. split; reflexivity.
    + intros [E [s [Ha Hb]]]. apply Nat.eqb_eq in E.
      rewrite E, Ha, Hb. cbn [bind]. rewrite String.eqb_refl. reflexivity.
  - intros i j l s H. rewrite areEqual_arrays, Nat.eqb_refl.
    rewrite <- (ToString_array_identity i j l), H. cbn [bind].
    rewrite String.eqb_refl. reflexivity.
  - intros a b Ha Hb. apply instanceOf_JSArray in Ha.
    destruct Ha as [id [items ->]].
    destruct (strictEquals_array_other id items b Hb) as [H1 H2].
    unfold areEqual. rewrite Hb. cbn [instanceOf andb].
    rewrite ?andb_false_r, H1, H2. split; reflexivity.
Qed.

Lemma areEqual_sequences_witness :
  areEqual (VArray 1 [VString "boolean"; VNull])
           (VArray 2 [VString "boolean"; VNull]) = Normal true /\
  areEqual (VArray 1 [VString "array"]) (VBoolean true) = Normal false.
Proof.
  split.
  - apply (proj1 (proj2 areEqual_sequences) 1%nat 2%nat _ "boolean,").
    reflexivity.
  - apply (proj1 (proj2 (proj2 areEqual_sequences)
                   (VArray 1 [VString "array"]) (VBoolean true)
                   eq_refl eq_refl)).
Defined.

(** C8, as stated with pairwise equality of the items, fails in both
    directions. The arrays ["a,b", "c"] and ["a", "b,c"], and [1] and ["1"],
    have the same length and the same conversion, so they are equal,
    although their first items are not; and an array of one symbol is not
    equal to an array of the same symbol: the conversion throws. *)
Lemma areEqual_not_pairwise :
  (areEqual (VArray 1 [VString "a,b"; VString "c"])
            (VArray 2 [VString "a"; VString "b,c"]) = Normal true /\
   areEqual (VString "a,b") (VString "a") = Normal false) /\
  (areEqual (VArray 3 [VNumber Number.one]) (VArray 4 [VString "1"]) = Normal true /\
   areEqual (VNumber Number.one) (VString "1") = Normal false) /\
  (areEqual (VArray 5 [VSymbol 7]) (VArray 6 [VSymbol 7]) = Throw TypeError /\
   areEqual (VSymbol 7) (VSymbol 7) = Normal true).
Proof. repeat split; reflexivity. Qed.

(** ** More on the classifier *)

Lemma isNaN_not_finite (x : Z) :
  Number.isNaN x = true -> Number.isFinite x = false.
Proof.
  unfold Number.isNaN, Number.isFinite.
  destruct (Number.exponentField x =? 2047); [reflexivity | discriminate].
Qed.

(** Case analysis on a value down to its label: the three kinds of number
    and the five classes of object are told apart. *)
Ltac label_cases v :=
  let x := fresh "x" in
  let cls := fresh "cls" in
  let Hnf := fresh "Hnf" in
  destruct v as [| | ? | x | ? | ? | ? | ? ? | ? ? | ? cls ?];
  [ | | | pose proof (isNaN_not_finite x) as Hnf; rewrite !getRealType_number;
          destruct (Number.isNaN x) eqn:?; destruct (Number.isFinite x) eqn:?;
          [ discriminate (Hnf eq_refl) | | | ]
    | | | | | | rewrite !getRealType_object; destruct cls ].

Ltac from_label :=
  let H := fresh "H" in
  intros H; try discriminate H; try reflexivity;
  try (eexists; split; [reflexivity | first [assumption | split; assumption]]);
  try (do 2 eexists; reflexivity).

Ltac to_label :=
  let H := fresh "H" in
  let E := fresh "E" in
  intros H; try discriminate H; try reflexivity;
  try (destruct H as [? [? H]]; discriminate H);
  try (destruct H as [? [E H]]; first [ discriminate E
             | injection E as <-;
               repeat match goal with C : _ /\ _ |- _ => destruct C end;
               congruence ]).

Lemma getRealType_undefined_iff (v : Value) :
  getRealType v = "undefined" <-> v = VUndefined.
Proof. label_cases v; (split; [from_label | to_label]). Qed.

Lemma getRealType_null_iff (v : Value) : getRealType v = "null" <-> v = VNull.
Proof. label_cases v; (split; [from_label | to_label]). Qed.

Lemma getRealType_array_iff (v : Value) :
  getRealType v = "array" <-> exists id items, v = VArray id items.
Proof. label_cases v; (split; [from_label | to_label]). Qed.

Lemma getRealType_finite_iff (v : Value) :
  getRealType v = "number" <-> exists x, v = VNumber x /\ Number.isFinite x = true.
Proof. label_cases v; (split; [from_label | to_label]). Qed.

Lemma getRealType_NaN_iff (v : Value) :
  getRealType v = "NaN" <-> exists x, v = VNumber x /\ Number.isNaN x = true.
Proof. label_cases v; (split; [from_label | to_label]). Qed.

Lemma getRealType_Infinity_iff (v : Value) :
  getRealType v = "Infinity" <->
  exists x, v = VNumber x /\ Number.isNaN x = false /\ Number.isFinite x = false.
Proof. label_cases v; (split; [from_label | to_label]). Qed.

Lemma getRealType_object_iff (v : Value) :
  getRealType v = "object" <-> exists id str, v = VObject id OrdinaryObject str.
Proof. label_cases v; (split; [from_label | to_label]). Qed.

(** X1: the labels that belong to one kind of value: "undefined" and "null"
    to those two values alone, "array" to the arrays, "object" to the
    objects that are instances of none of the five constructors, and
    "number", "NaN" and "Infinity" to the finite numbers, to NaN and to the
    two infinities. A string such as "null" is labelled "string". *)
Theorem getRealType_inverse (v : Value) :
  (getRealType v = "undefined" <-> v = VUndefined) /\
  (getRealType v = "null" <-> v = VNull) /\
  (getRealType v = "array" <-> exists id items, v = VArray id items) /\
  (getRealType v = "object" <-> exists id str, v = VObject id OrdinaryObject str) /\
  (getRealType v = "number" <->
   exists x, v = VNumber x /\ Number.isFinite x = true) /\
  (getRealType v = "NaN" <-> exists x, v = VNumber x /\ Number.isNaN x = true) /\
  (getRealType v = "Infinity" <->
   exists x, v = VNumber x /\ Number.isNaN x = false /\ Number.isFinite x = false).
Proof.
  split; [apply getRealType_undefined_iff |].
  split; [apply getRealType_null_iff |].
  split; [apply getRealType_array_iff |].
  split; [apply getRealType_object_iff |].
  split; [apply getRealType_finite_iff |].
  split; [apply getRealType_NaN_iff | apply getRealType_Infinity_iff].
Qed.

Lemma strictEquals_self (v : Value) :
  strictEquals v v = negb (Number_isNaN v).
Proof.
  destruct v as [| | b | x | z | s | i | i str | i items | i cls str];
    cbn [strictEquals Number_isNaN negb];
    rewrite ?Bool.eqb_reflx, ?Z.eqb_refl, ?String.eqb_refl, ?Nat.eqb_refl;
    try reflexivity.
  unfold Number.equal.
  rewrite Bool.eqb_reflx, !Z.eqb_refl. cbn [andb].
  rewrite orb_true_r, andb_true_r. destruct (Number.isNaN x); reflexivity.
Qed.

Lemma infinity_fields :
  Number.isNaN Number.POSITIVE_INFINITY = false /\
  Number.isZero Number.POSITIVE_INFINITY = false /\
  Number.signBit Number.POSITIVE_INFINITY = false /\
  Number.exponentField Number.POSITIVE_INFINITY = 2047 /\
  Number.fraction Number.POSITIVE_INFINITY = 0 /\
  Number.isNaN Number.NEGATIVE_INFINITY = false /\
  Number.isZero Number.NEGATIVE_INFINITY = false /\
  Number.signBit Number.NEGATIVE_INFINITY = true /\
  Number.exponentField Number.NEGATIVE_INFINITY = 2047 /\
  Number.fraction Number.NEGATIVE_INFINITY = 0.
Proof. vm_compute. repeat split; reflexivity. Qed.

Lemma equal_infinity (x : Z) :
  Number.equal x Number.POSITIVE_INFINITY || Number.equal x Number.NEGATIVE_INFINITY
  = negb (Number.isNaN x) && negb (Number.isFinite x).
Proof.
  destruct infinity_fields as [P1 [P2 [P3 [P4 [P5 [N1 [N2 [N3 [N4 N5]]]]]]]]].
  unfold Number.equal. rewrite P1, P2, P3, P4, P5, N1, N2, N3, N4, N5.
  unfold Number.isNaN, Number.isFinite.
  destruct (Number.exponentField x =? 2047) eqn:Ee;
    destruct (Number.fraction x =? 0) eqn:Ef;
    destruct (Number.signBit x); cbn; rewrite ?andb_false_r; reflexivity.
Qed.

(** X2: the labels of the numbers that [===] singles out: a value is labelled
    "NaN" exactly when it is not strictly equal to itself, and "Infinity"
    exactly when it is strictly equal to [Infinity] or to [-Infinity]. *)
Theorem getRealType_by_strict_equality (v : Value) :
  (getRealType v = "NaN" <-> strictEquals v v = false) /\
  (getRealType v = "Infinity" <->
   strictEquals v (VNumber Number.POSITIVE_INFINITY) = true \/
   strictEquals v (VNumber Number.NEGATIVE_INFINITY) = true).
Proof.
  split.
  - rewrite strictEquals_self, getRealType_NaN_iff. split.
    + intros [x [-> H]]. cbn [Number_isNaN]. rewrite H. reflexivity.
    + destruct v; cbn [Number_isNaN negb]; try discriminate.
      intros H. eexists. split; [reflexivity |].
      destruct (Number.isNaN bits); [reflexivity | discriminate].
  - rewrite getRealType_Infinity_iff, <- orb_true_iff. split.
    + intros [x [-> [Hn Hf]]]. cbn [strictEquals].
      rewrite equal_infinity, Hn, Hf. reflexivity.
    + destruct v; cbn [strictEquals orb]; try discriminate.
      rewrite equal_infinity. intros H. apply andb_true_iff in H.
      destruct H as [Hn Hf]. eexists. split; [reflexivity |].
      split; [destruct (Number.isNaN bits) | destruct (Number.isFinite bits)];
        [discriminate | reflexivity | discriminate | reflexivity].
Qed.

(** X3: the basic types of the items are the real types seen through
    [basicTypeOf], item by item. *)
Theorem getTypesOfItems_from_real_types (arr : list Value) :
  getTypesOfItems arr = map basicTypeOf (getRealTypesOfItems arr) /\
  List.length (getRealTypesOfItems arr) = List.length arr.
Proof.
  unfold getTypesOfItems, getRealTypesOfItems. split.
  - rewrite map_map. apply map_ext. intros v. apply getType_of_getRealType.
  - apply length_map.
Qed.

(** ** More on the aggregates *)

Lemma unique_NoDup (arr : list Value) :
  everyItemHasAUniqueRealType arr = true <-> NoDup (getRealTypesOfItems arr).
Proof.
  unfold everyItemHasAUniqueRealType, getRealTypesOfItems.
  rewrite every_unique_from by constructor. reflexivity.
Qed.

Lemma real_types_in_labels (arr : list Value) :
  incl (getRealTypesOfItems arr) labels.
Proof.
  intros k H. unfold getRealTypesOfItems in H. apply in_map_iff in H.
  destruct H as [v [<- _]]. apply getRealType_in_labels.
Qed.

(** X4: there are sixteen labels, so an array of more than sixteen items never
    has items of unique real types. *)
Theorem everyItemHasAUniqueRealType_at_most_16 (arr : list Value) :
  everyItemHasAUniqueRealType arr = true -> (List.length arr <= 16)%nat.
Proof.
  intros H. apply unique_NoDup in H.
  replace (List.length arr) with (List.length (getRealTypesOfItems arr))
    by apply length_map.
  apply (NoDup_incl_length H (real_types_in_labels arr)).
Qed.

Lemma everyItemHasAUniqueRealType_at_most_16_witness :
  (List.length knownTypes <= 16)%nat.
Proof.
  apply everyItemHasAUniqueRealType_at_most_16. vm_compute. reflexivity.
Defined.

(** X5: the answer of [everyItemHasAUniqueRealType] does not depend on the
    order of the items. *)
Theorem everyItemHasAUniqueRealType_Permutation (arr arr' : list Value) :
  Permutation arr arr' ->
  everyItemHasAUniqueRealType arr = everyItemHasAUniqueRealType arr'.
Proof.
  intros P. apply eq_true_iff_eq. rewrite !unique_NoDup.
  assert (P' : Permutation (getRealTypesOfItems arr) (getRealTypesOfItems arr'))
    by (apply Permutation_map; assumption).
  split; apply Permutation_NoDup; [assumption | apply Permutation_sym; assumption].
Qed.

Lemma everyItemHasAUniqueRealType_Permutation_witness :
  everyItemHasAUniqueRealType [VNull; VBoolean true; VNull] =
  everyItemHasAUniqueRealType [VNull; VNull; VBoolean true].
Proof.
  apply everyItemHasAUniqueRealType_Permutation.
  apply perm_skip. apply perm_swap.
Defined.

(** X6: the parts of an array whose items have unique real types have items of
    unique real types as well. *)
Theorem everyItemHasAUniqueRealType_parts (arr1 arr2 : list Value) :
  everyItemHasAUniqueRealType (arr1 ++ arr2) = true ->
  everyItemHasAUniqueRealType arr1 = true /\
  everyItemHasAUniqueRealType arr2 = true.
Proof.
  rewrite !unique_NoDup. unfold getRealTypesOfItems. rewrite map_app.
  intros H. split;
    [apply NoDup_app_remove_r in H | apply NoDup_app_remove_l in H]; assumption.
Qed.

Lemma everyItemHasAUniqueRealType_parts_witness :
  everyItemHasAUniqueRealType (firstn 9 knownTypes) = true /\
  everyItemHasAUniqueRealType (skipn 9 knownTypes) = true.
Proof.
  apply everyItemHasAUniqueRealType_parts. vm_compute. reflexivity.
Defined.

(** ** More on allItemsHaveTheSameType *)

Lemma allItemsHaveTheSameType_pairwise (arr : list Value) :
  allItemsHaveTheSameType arr = true <->
  forall x y, In x arr -> In y arr -> getType x = getType y.
Proof.
  rewrite allItemsHaveTheSameType_basic. destruct arr as [| first rest].
  - split; [intros _ x y [] | trivial].
  - split.
    + intros H x y Hx Hy. rewrite (H x Hx), (H y Hy). reflexivity.
    + intros H x Hx. apply H; [assumption | left; reflexivity].
Qed.

(** X7: although the items are compared with the first one, the answer of
    [allItemsHaveTheSameType] does not depend on the order of the items. *)
Theorem allItemsHaveTheSameType_Permutation (arr arr' : list Value) :
  Permutation arr arr' ->
  allItemsHaveTheSameType arr = allItemsHaveTheSameType arr'.
Proof.
  intros P. apply eq_true_iff_eq. rewrite !allItemsHaveTheSameType_pairwise.
  split; intros H x y Hx Hy; apply H;
    first [ apply (Permutation_in _ P); assumption
          | apply (Permutation_in _ (Permutation_sym P)); assumption ].
Qed.

Lemma allItemsHaveTheSameType_Permutation_witness :
  allItemsHaveTheSameType [VNull; VBoolean true; VNull] =
  allItemsHaveTheSameType [VNull; VNull; VBoolean true].
Proof.
  apply allItemsHaveTheSameType_Permutation.
  apply perm_skip. apply perm_swap.
Defined.

(** X8: two arrays pass [allItemsHaveTheSameType] together, as one array,
    exactly when each passes and, if neither is empty, their first items
    have the same basic type. *)
Theorem allItemsHaveTheSameType_app (arr1 arr2 : list Value) :
  allItemsHaveTheSameType (arr1 ++ arr2) = true <->
  allItemsHaveTheSameType arr1 = true /\
  allItemsHaveTheSameType arr2 = true /\
  (forall x y, hd_error arr1 = Some x -> hd_error arr2 = Some y ->
               getType x = getType y).
Proof.
  rewrite !allItemsHaveTheSameType_pairwise. split.
  - intros H. repeat split.
    + intros x y Hx Hy. apply H; apply in_or_app; left; assumption.
    + intros x y Hx Hy. apply H; apply in_or_app; right; assumption.
    + intros x y Hx Hy. apply H; apply in_or_app.
      * left. destruct arr1; [discriminate | injection Hx as ->; left; reflexivity].
      * right. destruct arr2; [discriminate | injection Hy as ->; left; reflexivity].
  - intros [H1 [H2 H12]].
    assert (Hcross : forall x y, In x arr1 -> In y arr2 -> getType x = getType y).
    { intros x y Hx Hy.
      destruct arr1 as [| a arr1]; [contradiction |].
      destruct arr2 as [| b arr2]; [contradiction |].
      rewrite (H1 x a Hx (or_introl eq_refl)), (H2 y b Hy (or_introl eq_refl)).
      apply H12; reflexivity. }
    intros x y Hx Hy. apply in_app_or in Hx. apply in_app_or in Hy.
    destruct Hx as [Hx | Hx]; destruct Hy as [Hy | Hy]; auto.
    symmetry. auto.
Qed.

(** ** More on countRealTypes *)

Section Histogram.

Variable localeCompare : string -> string -> Z.

Lemma countRealTypes_entry (arr : list Value) (label : string) (count : Z) :
  In (label, count) (countRealTypes localeCompare arr) <->
  count = occurrences label (getRealTypesOfItems arr) /\ 1 <= count.
Proof.
  rewrite <- (Tallied_entry _ _ label count (countRealTypes_Tallied arr)).
  pose proof (countRealTypes_Permutation_tally localeCompare arr) as P.
  split; apply Permutation_in; [assumption | apply Permutation_sym; assumption].
Qed.

(** X9: the histogram is exact: a pair (label, count) is in the result of
    [countRealTypes] exactly when [count] is the number of items of the
    array whose real type is [label], and that number is not zero. *)
Theorem countRealTypes_counts (arr : list Value) (label : string) (count : Z) :
  In (label, count) (countRealTypes localeCompare arr) <->
  count = Z.of_nat (count_occ string_dec (getRealTypesOfItems arr) label) /\
  1 <= count.
Proof. apply countRealTypes_entry. Qed.

Lemma countRealTypes_keys_NoDup (arr : list Value) :
  NoDup (map fst (countRealTypes localeCompare arr)).
Proof.
  apply Permutation_NoDup with (map fst (forEach tally arr []));
    [apply Permutation_map, Permutation_sym, countRealTypes_Permutation_tally |].
  apply (tallied_keys _ _ (countRealTypes_Tallied arr)).
Qed.

Lemma countRealTypes_keys (arr : list Value) (label : string) :
  In label (map fst (countRealTypes localeCompare arr)) <->
  In label (getRealTypesOfItems arr).
Proof.
  rewrite <- (Tallied_keys_iff _ _ label (countRealTypes_Tallied arr)).
  pose proof (countRealTypes_Permutation_tally localeCompare arr) as P.
  split; apply Permutation_in, Permutation_map;
    [assumption | apply Permutation_sym; assumption].
Qed.

(** X10: the result of [countRealTypes] has at most sixteen pairs, and no more
    pairs than the array has items. *)
Theorem countRealTypes_size (arr : list Value) :
  (List.length (countRealTypes localeCompare arr) <= 16)%nat /\
  (List.length (countRealTypes localeCompare arr) <= List.length arr)%nat.
Proof.
  rewrite <- (length_map fst (countRealTypes localeCompare arr)). split.
  - assert (Hincl : incl (map fst (countRealTypes localeCompare arr)) labels).
    { intros k Hk. apply countRealTypes_keys in Hk.
      apply (real_types_in_labels arr). assumption. }
    apply (NoDup_incl_length (countRealTypes_keys_NoDup arr) Hincl).
  - rewrite <- (length_map (fun item => getRealType item) arr).
    assert (Hincl : incl (map fst (countRealTypes localeCompare arr))
                         (getRealTypesOfItems arr)).
    { intros k Hk. apply countRealTypes_keys in Hk. assumption. }
    apply (NoDup_incl_length (countRealTypes_keys_NoDup arr) Hincl).
Qed.

(** X11: the two aggregates agree: the items of an array have unique real types
    exactly when every count of its histogram is 1. *)
Theorem everyItemHasAUniqueRealType_counts (arr : list Value) :
  everyItemHasAUniqueRealType arr = true <->
  Forall (fun entry => snd entry = 1) (countRealTypes localeCompare arr).
Proof.
  rewrite unique_NoDup, (NoDup_count_occ string_dec), Forall_forall. split.
  - intros H [k c] HIn. apply countRealTypes_entry in HIn.
    destruct HIn as [-> Hc]. unfold occurrences in *. cbn [snd].
    specialize (H k). lia.
  - intros H k.
    destruct (count_occ string_dec (getRealTypesOfItems arr) k) as [| n] eqn:E;
      [lia |].
    assert (HIn : In (k, occurrences k (getRealTypesOfItems arr))
                     (countRealTypes localeCompare arr)).
    { apply countRealTypes_entry. unfold occurrences. split; [reflexivity | lia]. }
    apply H in HIn. cbn [snd] in HIn. unfold occurrences in HIn. lia.
Qed.

End Histogram.

(** ** More on areEqual *)

Lemma Number_equal_sym (x y : Z) : Number.equal x y = Number.equal y x.
Proof.
  unfold Number.equal.
  rewrite (Z.eqb_sym (Number.exponentField x)), (Z.eqb_sym (Number.fraction x)).
  replace (Bool.eqb (Number.signBit x) (Number.signBit y))
    with (Bool.eqb (Number.signBit y) (Number.signBit x))
    by (destruct (Number.signBit x), (Number.signBit y); reflexivity).
  destruct (Number.isNaN x), (Number.isNaN y), (Number.isZero x), (Number.isZero y);
    reflexivity.
Qed.

Lemma strictEquals_sym (a b : Value) : strictEquals a b = strictEquals b a.
Proof.
  destruct a, b; cbn [strictEquals]; try reflexivity.
  - destruct b, b0; reflexivity.
  - apply Number_equal_sym.
  - apply Z.eqb_sym.
  - apply String.eqb_sym.
  - apply Nat.eqb_sym.
  - apply Nat.eqb_sym.
  - apply Nat.eqb_sym.
  - apply Nat.eqb_sym.
Qed.

(** X12: the verdict of [areEqual] does not depend on the order of its
    arguments. *)
Theorem areEqual_symmetric (a b : Value) (verdict : bool) :
  areEqual a b = Normal verdict <-> areEqual b a = Normal verdict.
Proof.
  assert (H : forall a b v, areEqual a b = Normal v -> areEqual b a = Normal v).
  { clear. intros a b v. unfold areEqual.
    rewrite (andb_comm (instanceOf b JSArray)), (Nat.eqb_sym (arrayLength b)),
      (strictEquals_sym b a).
    destruct (instanceOf a JSArray && instanceOf b JSArray); [| trivial].
    destruct (negb (Nat.eqb (arrayLength a) (arrayLength b))); [trivial |].
    destruct (ToString a) as [sa | e]; [| discriminate].
    destruct (ToString b) as [sb | e]; [| discriminate].
    cbn [bind]. rewrite (String.eqb_sym sb sa). trivial. }
  split; apply H.
Qed.

(** X13: [areEqual] throws only on two arrays of the same length, when the
    conversion of one of them to a string throws. *)
Theorem areEqual_throws (a b : Value) (e : Error) :
  areEqual a b = Throw e ->
  (exists i l j m,
      a = VArray i l /\ b = VArray j m /\ List.length l = List.length m) /\
  (ToString a = Throw e \/ ToString b = Throw e).
Proof.
  unfold areEqual.
  destruct (instanceOf a JSArray) eqn:Ea; [| discriminate].
  destruct (instanceOf b JSArray) eqn:Eb; [| discriminate].
  apply instanceOf_JSArray in Ea. destruct Ea as [i [l ->]].
  apply instanceOf_JSArray in Eb. destruct Eb as [j [m ->]].
  cbn [andb arrayLength].
  destruct (Nat.eqb (List.length l) (List.length m)) eqn:E; [| discriminate].
  apply Nat.eqb_eq in E. cbn [negb].
  destruct (ToString (VArray i l)) as [sa | ea]; cbn [bind].
  - destruct (ToString (VArray j m)) as [sb | eb]; cbn [bind]; [discriminate |].
    intros [= ->]. split; [| right; reflexivity].
    exists i, l, j, m. repeat split; assumption.
  - intros [= ->]. split; [| left; reflexivity].
    exists i, l, j, m. repeat split; assumption.
Qed.

Lemma areEqual_throws_witness :
  (exists i l j m,
      VArray 5 [VSymbol 7] = VArray i l /\ VArray 6 [VString "s"] = VArray j m /\
      List.length l = List.length m) /\
  (ToString (VArray 5 [VSymbol 7]) = Throw TypeError \/
   ToString (VArray 6 [VString "s"]) = Throw TypeError).
Proof. apply areEqual_throws. reflexivity. Defined.

(** X14: compared with itself, a value that is not an array is equal unless it
    is NaN; an array is equal to itself unless its conversion to a string
    throws. *)
Theorem areEqual_self (v : Value) :
  (instanceOf v JSArray = false ->
   areEqual v v = Normal (negb (Number_isNaN v))) /\
  (instanceOf v JSArray = true ->
   areEqual v v = (s <- ToString v ;; Normal true)).
Proof.
  unfold areEqual. split; intros H; rewrite H; cbn [andb].
  - rewrite strictEquals_self. reflexivity.
  - rewrite Nat.eqb_refl. cbn [negb].
    destruct (ToString v) as [s | e]; cbn [bind]; [| reflexivity].
    rewrite String.eqb_refl. reflexivity.
Qed.

Lemma areEqual_self_witness :
  areEqual (VNumber Number.NaN) (VNumber Number.NaN) = Normal false /\
  areEqual (VArray 1 [VSymbol 2]) (VArray 1 [VSymbol 2]) = Throw TypeError.
Proof.
  split.
  - apply (proj1 (areEqual_self (VNumber Number.NaN))). reflexivity.
  - apply (proj2 (areEqual_self (VArray 1 [VSymbol 2]))). reflexivity.
Defined.

Lemma ToString_plain_items (l : list Value) :
  Forall (fun v => isPlainPrimitive v = true) l ->
  exists parts,
    sequence (map (fun item =>
                     match item with
                     | VUndefined | VNull => Normal ""
                     | _ => ToString item
                     end) l) = Normal parts.
Proof.
  induction 1 as [| v l Hv _ IH]; cbn [map sequence].
  - exists []. reflexivity.
  - destruct IH as [parts ->]. destruct v; try discriminate Hv; cbn [ToString bind];
      eexists; reflexivity.
Qed.

Lemma ToString_plain_array (i : nat) (l : list Value) :
  Forall (fun v => isPlainPrimitive v = true) l ->
  exists s, ToString (VArray i l) = Normal s.
Proof.
  intros H. destruct (ToString_plain_items l H) as [parts E].
  cbn [ToString]. rewrite E. cbn [bind]. eexists. reflexivity.
Qed.

(** X15: arrays of primitives other than symbols, the arrays [areEqual] is
    written for, are always compared without an exception. *)
Theorem areEqual_primitive_arrays (i j : nat) (l m : list Value) :
  Forall (fun v => isPlainPrimitive v = true) l ->
  Forall (fun v => isPlainPrimitive v = true) m ->
  exists verdict, areEqual (VArray i l) (VArray j m) = Normal verdict.
Proof.
  intros Hl Hm. rewrite areEqual_arrays.
  destruct (ToString_plain_array i l Hl) as [sa ->].
  destruct (ToString_plain_array j m Hm) as [sb ->].
  destruct (Nat.eqb (List.length l) (List.length m)); cbn [bind]; eexists; reflexivity.
Qed.

Lemma areEqual_primitive_arrays_witness :
  exists verdict,
    areEqual (VArray 1 [VNull; VBoolean true; VString "a"])
             (VArray 2 [VUndefined; VBigInt 3; VString "b"]) = Normal verdict.
Proof.
  apply areEqual_primitive_arrays; repeat constructor.
Defined.

(** *** The harness on arrays of labels *)

Lemma ToString_stringArray (id : nat) (l : list string) :
  ToString (stringArray id l) = Normal (join l).
Proof.
  unfold stringArray. cbn [ToString].
  assert (E : sequence (map (fun item =>
                               match item with
                               | VUndefined | VNull => Normal ""
                               | _ => ToString item
                               end) (map VString l)) = Normal l).
  { induction l as [| s l IH]; cbn [map sequence ToString bind].
    - reflexivity.
    - rewrite IH. reflexivity. }
  rewrite E. reflexivity.
Qed.

Lemma append_comma_inj (x y a b : string) :
  commaFree x = true -> commaFree y = true ->
  x ++ "," ++ a = y ++ "," ++ b -> x = y /\ a = b.
Proof.
  revert y. induction x as [| c x IH]; intros [| d y] Hx Hy E; cbn in *.
  - injection E as ->. split; reflexivity.
  - injection E as <- _. cbn in Hy. discriminate Hy.
  - injection E as -> _. cbn in Hx. discriminate Hx.
  - injection E as -> E.
    apply andb_true_iff in Hx. apply andb_true_iff in Hy.
    destruct (IH y (proj2 Hx) (proj2 Hy) E) as [-> ->]. split; reflexivity.
Qed.

Lemma join_inj (l : list string) :
  forall m,
    List.length l = List.length m ->
    Forall (fun s => commaFree s = true) l ->
    Forall (fun s => commaFree s = true) m ->
    join l = join m -> l = m.
Proof.
  induction l as [| x l IH]; intros [| y m] Hlen Hl Hm E; try discriminate Hlen.
  - reflexivity.
  - inversion Hl as [| ? ? Hx Hl']; subst. inversion Hm as [| ? ? Hy Hm']; subst.
    injection Hlen as Hlen.
    destruct l as [| x' l]; destruct m as [| y' m]; try discriminate Hlen.
    + cbn in E. congruence.
    + change (x ++ "," ++ join (x' :: l) = y ++ "," ++ join (y' :: m)) in E.
      destruct (append_comma_inj _ _ _ _ Hx Hy E) as [-> E'].
      f_equal. apply IH; assumption.
Qed.

Lemma areEqual_stringArray_iff (i j : nat) (l m : list string) :
  Forall (fun s => commaFree s = true) l ->
  Forall (fun s => commaFree s = true) m ->
  (areEqual (stringArray i l) (stringArray j m) = Normal true <-> l = m).
Proof.
  intros Hl Hm. unfold areEqual. cbn [stringArray instanceOf andb arrayLength].
  fold (stringArray i l). fold (stringArray j m).
  rewrite !ToString_stringArray, !length_map. cbn [bind]. split.
  - destruct (Nat.eqb (List.length l) (List.length m)) eqn:E; [| discriminate].
    apply Nat.eqb_eq in E. cbn [negb]. intros [= H].
    apply String.eqb_eq in H. apply join_inj; assumption.
  - intros ->. rewrite Nat.eqb_refl, String.eqb_refl. reflexivity.
Qed.

(** X16: on two arrays of strings without commas, [areEqual] is equality of
    the sequences of strings. *)
Theorem areEqual_string_arrays (i j : nat) (l m : list string) :
  Forall (fun s => commaFree s = true) l ->
  Forall (fun s => commaFree s = true) m ->
  (areEqual (stringArray i l) (stringArray j m) = Normal true <-> l = m).
Proof. apply areEqual_stringArray_iff. Qed.

Lemma areEqual_string_arrays_witness :
  areEqual (stringArray 1 ["boolean"; "NaN"]) (stringArray 2 ["boolean"; "NaN"])
  = Normal true <-> ["boolean"; "NaN"] = ["boolean"; "NaN"].
Proof.
  apply areEqual_string_arrays; repeat constructor.
Defined.

Lemma labels_commaFree (label : string) :
  In label labels -> commaFree label = true.
Proof.
  intros H.
  assert (A : forallb commaFree labels = true) by (vm_compute; reflexivity).
  rewrite forallb_forall in A. apply A. assumption.
Qed.

(** X17: a test of [getRealTypesOfItems] against an expected array of strings
    without commas passes exactly when the real types of the items are the
    expected strings, in order. *)
Theorem test_getRealTypesOfItems (i j : nat) (arr : list Value)
        (expected : list string) :
  Forall (fun s => commaFree s = true) expected ->
  (areEqual (stringArray i (getRealTypesOfItems arr)) (stringArray j expected)
   = Normal true
   <-> getRealTypesOfItems arr = expected).
Proof.
  intros H. apply areEqual_stringArray_iff; [| assumption].
  apply Forall_forall. intros s Hs. apply labels_commaFree.
  apply (real_types_in_labels arr). assumption.
Qed.

Lemma test_getRealTypesOfItems_witness :
  areEqual (stringArray 1 (getRealTypesOfItems [VNull; VArray 3 []]))
           (stringArray 2 ["null"; "array"]) = Normal true
  <-> getRealTypesOfItems [VNull; VArray 3 []] = ["null"; "array"].
Proof.
  apply test_getRealTypesOfItems; repeat constructor.
Defined.

(** ** The untyped variant *)

Section UntypedAgrees.

Variable ToNumber : Value -> Completion Z.
Hypothesis ToNumber_number : forall x, ToNumber (VNumber x) = Normal x.

(** X18: the two files classify alike: with the globals [isNaN] and [isFinite]
    in the place of [Number.isNaN] and [Number.isFinite], the classifier
    returns, without an exception, the label the typed one returns; the
    globals are only reached with numbers, which [ToNumber] leaves as they
    are. *)
Theorem untyped_getRealType_agrees (v : Value) :
  Untyped.getRealType ToNumber v = Normal (getRealType v).
Proof.
  destruct v as [| | b | x | z | s | i | i str | i items | i cls str];
    try reflexivity.
  - unfold Untyped.getRealType, Untyped.isNaN, Untyped.isFinite.
    cbn [typeOf String.eqb Ascii.eqb Bool.eqb].
    rewrite getRealType_number, ToNumber_number. cbn [bind].
    destruct (Number.isNaN x); [reflexivity |].
    destruct (Number.isFinite x); reflexivity.
  - rewrite getRealType_object. destruct cls; reflexivity.
Qed.

End UntypedAgrees.

Lemma untyped_getRealType_agrees_witness :
  Untyped.getRealType
    (fun v => match v with VNumber x => Normal x | _ => Throw TypeError end)
    (VNumber Number.NEGATIVE_INFINITY)
  = Normal (getRealType (VNumber Number.NEGATIVE_INFINITY)).
Proof.
  apply untyped_getRealType_agrees. reflexivity.
Defined.

(** ** The test harness *)

Lemma groupDepth_app (console calls : Console) :
  groupDepth (console ++ calls)%list = fold_left groupStep calls (groupDepth console).
Proof. unfold groupDepth. apply fold_left_app. Qed.

Lemma groupDepth_testBlock (name : string) (console : Console) :
  groupDepth (testBlock name console) = S (Nat.pred (groupDepth console)).
Proof. unfold testBlock. rewrite groupDepth_app. reflexivity. Qed.

Lemma prefix_append (p s : string) : prefix p (p ++ s) = true.
Proof.
  induction p as [| c p IH]; cbn; [destruct s; reflexivity |].
  destruct (ascii_dec c c) as [_ | N]; [assumption | contradiction].
Qed.

Lemma isVerdict_ok (s : string) : isVerdict (console_log ("[OK] " ++ s)) = true.
Proof. apply (prefix_append "[OK] " s). Qed.

Lemma isVerdict_fail (s : string) :
  isVerdict (console_error ("[FAIL] " ++ s)) = true.
Proof. apply (prefix_append "[FAIL] " s). Qed.

Lemma test_appends (whatWeTest : string) (actual expected : Value)
      (console console' : Console) :
  test whatWeTest actual expected console = Normal console' ->
  exists calls,
    console' = (console ++ calls)%list /\
    groupDepth console' = groupDepth console /\
    List.length (filter isVerdict calls) = 1%nat /\
    List.length (filter isFailure calls)
    = (if fails (Test whatWeTest actual expected) then 1 else 0)%nat.
Proof.
  unfold test, fails.
  destruct (areEqual actual expected) as [[|] | e]; cbn [bind]; [| | discriminate].
  - intros [= <-].
    exists [console_log ("[OK] " ++ whatWeTest ++ newline)].
    split; [reflexivity |]. rewrite groupDepth_app.
    split; [reflexivity |]. cbn [filter]. rewrite isVerdict_ok.
    split; reflexivity.
  - intros [= <-].
    exists [console_error ("[FAIL] " ++ whatWeTest);
            console_debug (VString "Expected:"); console_debug expected;
            console_debug (VString "Actual:"); console_debug actual;
            console_log ""].
    split; [reflexivity |]. rewrite groupDepth_app.
    split; [reflexivity |]. cbn [filter]. rewrite isVerdict_fail.
    split; reflexivity.
Qed.

Lemma test_throws (whatWeTest : string) (actual expected : Value)
      (console : Console) (e : Error) :
  test whatWeTest actual expected console = Throw e <->
  areEqual actual expected = Throw e.
Proof.
  unfold test. destruct (areEqual actual expected) as [[|] | e']; cbn [bind];
    split; intros H; first [discriminate H | injection H as ->; reflexivity].
Qed.

Lemma run_groupDepth (script : list Statement) :
  forall console,
    (groupDepth console <= 1)%nat ->
    (groupDepth (fst (run script console)) <= 1)%nat /\
    (groupDepth console = 1%nat -> groupDepth (fst (run script console)) = 1%nat) /\
    (snd (run script console) = None ->
     existsb (fun s => negb (isTest s)) script = true ->
     groupDepth (fst (run script console)) = 1%nat).
Proof.
  induction script as [| [name | what actual expected] script IH];
    intros console H; cbn [run existsb isTest negb orb].
  - split; [assumption | split; [trivial | discriminate]].
  - assert (E : groupDepth (testBlock name console) = 1%nat)
      by (rewrite groupDepth_testBlock; lia).
    destruct (IH (testBlock name console)) as [_ [IH1 _]]; [lia |].
    rewrite (IH1 E). split; [lia | split; reflexivity].
  - destruct (test what actual expected console) as [console' | e] eqn:E.
    + apply test_appends in E. destruct E as [calls [_ [Hd _]]].
      destruct (IH console') as [I1 [I2 I3]]; [lia |].
      split; [exact I1 | split; [intros; apply I2; lia | exact I3]].
    + cbn [fst snd]. split; [assumption | split; [trivial | discriminate]].
Qed.

(** X19: the groups of the output never nest: [testBlock] closes the open group
    before it opens its own and [test] leaves the groups alone. However the
    calls follow each other from an empty console, at most one group is
    open at the end, and exactly one when the calls all returned and
    [testBlock] was one of them. *)
Theorem run_groups_never_nest (script : list Statement) :
  (groupDepth (fst (run script [])) <= 1)%nat /\
  (snd (run script []) = None ->
   existsb (fun s => negb (isTest s)) script = true ->
   groupDepth (fst (run script [])) = 1%nat).
Proof.
  destruct (run_groupDepth script []) as [H1 [_ H3]]; [cbn; lia |].
  split; assumption.
Qed.

Lemma run_groups_never_nest_witness :
  groupDepth
    (fst (run [TestBlock "getType"; Test "Null" (VString "object") (VString "object");
               TestBlock "areEqual"] [])) = 1%nat.
Proof.
  apply (proj2 (run_groups_never_nest _)); reflexivity.
Defined.

Lemma filter_length_app {A : Type} (f : A -> bool) (l l' : list A) :
  List.length (filter f (l ++ l')) =
  (List.length (filter f l) + List.length (filter f l'))%nat.
Proof. rewrite filter_app, length_app. reflexivity. Qed.

Lemma run_verdicts (script : list Statement) :
  forall console,
    snd (run script console) = None ->
    List.length (filter isVerdict (fst (run script console))) =
    (List.length (filter isVerdict console) + List.length (filter isTest script))%nat /\
    List.length (filter isFailure (fst (run script console))) =
    (List.length (filter isFailure console) + List.length (filter fails script))%nat.
Proof.
  induction script as [| [name | what actual expected] script IH];
    intros console H; cbn [run] in *.
  - cbn. split; lia.
  - destruct (IH _ H) as [V F]. rewrite V, F. unfold testBlock.
    rewrite !filter_length_app. cbn. split; lia.
  - destruct (test what actual expected console) as [console' | e] eqn:E;
      [| discriminate H].
    destruct (IH _ H) as [V F]. rewrite V, F.
    apply test_appends in E. destruct E as [calls [-> [_ [Hv Hf]]]].
    rewrite !filter_length_app, Hv, Hf.
    cbn [filter isTest List.length].
    destruct (fails (Test what actual expected)); cbn [List.length]; split; lia.
Qed.

(** X20: no test is lost and none is reported twice: when the calls all
    returned, the console holds one verdict line, "[OK]" or "[FAIL]", for
    each call of [test], and one "[FAIL]" for each test whose values
    [areEqual] finds different. *)
Theorem run_reports_every_test (script : list Statement) :
  snd (run script []) = None ->
  List.length (filter isVerdict (fst (run script []))) =
  List.length (filter isTest script) /\
  List.length (filter isFailure (fst (run script []))) =
  List.length (filter fails script).
Proof.
  intros H. destruct (run_verdicts script [] H) as [V F]. split; assumption.
Qed.

Lemma run_reports_every_test_witness :
  let script :=
    [TestBlock "areEqual";
     Test "Equal" number123 number123;
     Test "Number and string" (VNumber 0x4074100000000000) (VString "321");
     Test "Different types" (stringArray 1 ["array"]) (VBoolean true)] in
  List.length (filter isVerdict (fst (run script []))) =
  List.length (filter isTest script) /\
  List.length (filter isFailure (fst (run script []))) =
  List.length (filter fails script).
Proof.
  cbv zeta. apply run_reports_every_test. vm_compute. reflexivity.
Defined.

Lemma run_app (before after : list Statement) :
  forall console,
    snd (run before console) = None ->
    run (before ++ after) console = run after (fst (run before console)).
Proof.
  induction before as [| [name | what actual expected] before IH];
    intros console H; cbn [run app] in *.
  - reflexivity.
  - apply IH. assumption.
  - destruct (test what actual expected console) as [console' | e];
      [apply IH; assumption | discriminate H].
Qed.

(** X21: a test whose comparison throws prints nothing and ends the run: the
    calls after it are not made, and the console stays as the calls before
    it left it. *)
Theorem run_stops_at_exception (before after : list Statement)
        (whatWeTest : string) (actual expected : Value) (e : Error) :
  snd (run before []) = None ->
  areEqual actual expected = Throw e ->
  run (before ++ Test whatWeTest actual expected :: after) [] =
  (fst (run before []), Some e).
Proof.
  intros H E. rewrite (run_app _ _ [] H). cbn [run].
  apply (test_throws whatWeTest actual expected (fst (run before []))) in E.
  rewrite E. reflexivity.
Qed.

Lemma run_stops_at_exception_witness :
  run ([TestBlock "symbols"] ++
       Test "Symbols" (VArray 1 [VSymbol 2]) (VArray 3 [VSymbol 2]) ::
       [Test "Equal" number123 number123]) [] =
  (fst (run [TestBlock "symbols"] []), Some TypeError).
Proof.
  apply run_stops_at_exception; reflexivity.
Defined.
